(** * QueueClip: a shallow embedding of the queue, clipboard, settings and
      hotkey logic, and the properties of its specification.

    The Python sources embedded here are
    - [queueclip/queue_manager.py]   (module [QueueManager]),
    - [queueclip/clipboard_monitor.py] (module [ClipboardMonitor]),
    - [queueclip/settings.py]        (module [Settings]),
    - [queueclip/hotkey_handler.py]  (module [HotkeyHandler]),
    - [queueclip/main.py]            (module [QueueClipApp]).

    Python [str] values are lists of Unicode code points, Python [int]s are
    [Z], [len] results are [nat], a raised exception is the [Raise] branch of
    [result], and a Qt signal emission is an entry of a returned log. *)

From Stdlib Require Import ZArith NArith List Bool Lia String Ascii DecimalString.
From stdpp Require Import base option list gmap.
From Equations Require Import Equations.
Import ListNotations.

Set Warnings "-register-all".

Local Open Scope Z_scope.

(** ** Python values shared by all modules *)

(** A Python [str] is a sequence of Unicode code points. *)
Definition char := N.
Definition str := list char.

(** [lit "abc"] is the Python literal ['abc'] (ASCII source text). *)
Definition lit (s : string) : str :=
  map N_of_ascii (list_ascii_of_string s).

(** The exceptions the embedded code can raise. *)
Inductive exn :=
| ValueError      (* str.split with an empty separator *)
| TypeError       (* [**] on a non-mapping, an unhashable dict key *)
| OSError         (* file system failures *)
| JSONDecodeError (* json.load on malformed text *)
| PyperclipException.

Inductive result (A : Type) :=
| Ok (a : A)
| Raise (e : exn).
Arguments Ok {A} a.
Arguments Raise {A} e.

Module PyStr.

(** Truthiness of a string: [if s] holds exactly for non-empty strings. *)
Definition truthy (s : str) : bool :=
  match s with [] => false | _ :: _ => true end.

(** Truthiness of a list: [if l] holds exactly for non-empty lists. *)
Definition list_truthy {A : Type} (l : list A) : bool :=
  match l with [] => false | _ :: _ => true end.

Definition eqb (a b : str) : bool := bool_decide (a = b).

(** [str.isspace] on one code point: CPython's [_PyUnicode_IsWhitespace]. *)
Definition isspace (c : char) : bool :=
  ((9 <=? c) && (c <=? 13) || (28 <=? c) && (c <=? 32) ||
   (c =? 133) || (c =? 160) || (c =? 5760) ||
   (8192 <=? c) && (c <=? 8202) || (c =? 8232) || (c =? 8233) ||
   (c =? 8239) || (c =? 8287) || (c =? 12288))%N.

Fixpoint lstrip (s : str) : str :=
  match s with
  | c :: s' => if isspace c then lstrip s' else s
  | [] => []
  end.

Definition rstrip (s : str) : str := rev (lstrip (rev s)).

(** [s.strip()]: leading and trailing whitespace removed. *)
Definition strip (s : str) : str := lstrip (rstrip s).

(** [s.startswith(p)]. *)
Fixpoint startswith (p s : str) : bool :=
  match p, s with
  | [], _ => true
  | _ :: _, [] => false
  | a :: p', b :: s' => (a =? b)%N && startswith p' s'
  end.

(** [p in s] for strings: [p] occurs in [s] as a contiguous substring. *)
Fixpoint contains (p s : str) : bool :=
  startswith p s ||
  match s with
  | [] => false
  | _ :: s' => contains p s'
  end.

(** The first occurrence of [sep] in [s], scanning from the left, as the
    text before it and the text after it ([str.partition] without the
    separator); [None] when [sep] does not occur. *)
Fixpoint cut (sep s : str) : option (str * str) :=
  if startswith sep s then Some ([], skipn (length sep) s)
  else match s with
       | [] => None
       | c :: s' =>
           match cut sep s' with
           | Some (b, a) => Some (c :: b, a)
           | None => None
           end
       end.

Lemma startswith_app p s : startswith p s = true -> s = p ++ skipn (length p) s.
Proof.
  revert s; induction p as [|a p IH]; intros [|b s] H; simpl in *; try done.
  apply andb_prop in H as [Hab Hps]. apply N.eqb_eq in Hab as ->.
  f_equal. by apply IH.
Qed.

Lemma cut_spec sep s b a :
  cut sep s = Some (b, a) -> s = b ++ sep ++ a.
Proof.
  revert b a; induction s as [|c s IH]; intros b a; simpl.
  - destruct (startswith sep []) eqn:Hp; [|done].
    intros [= <- <-]. by apply startswith_app in Hp.
  - destruct (startswith sep (c :: s)) eqn:Hp.
    + intros [= <- <-]. by apply startswith_app in Hp.
    + destruct (cut sep s) as [[b' a']|] eqn:Hc; [|done].
      intros [= <- <-]. simpl. f_equal. by apply IH.
Qed.

Lemma cut_shorter c sep s b a :
  cut (c :: sep) s = Some (b, a) -> (length a < length s)%nat.
Proof.
  intros H%cut_spec. subst s. rewrite !length_app. simpl. lia.
Qed.

(** A value together with the equation that names it, so that the
    termination proofs below can use the result of [cut]. *)
Definition inspect {A : Type} (a : A) : {b : A | a = b} := exist _ a eq_refl.

(** [s.split(sep)] for a non-empty separator [c :: sep]: cut at the first
    occurrence, keep the text before it, continue after it. *)
Equations? split_on (c : char) (sep : str) (s : str) : list str
  by wf (length s) lt :=
  split_on c sep s with inspect (cut (c :: sep) s) := {
    | exist _ None _ => [s]
    | exist _ (Some (b, a)) H => b :: split_on c sep a }.
Proof. by eapply cut_shorter. Qed.

(** [s.split(sep)]: an empty separator raises [ValueError]. *)
Definition split (s sep : str) : result (list str) :=
  match sep with
  | [] => Raise ValueError
  | c :: sep' => Ok (split_on c sep' s)
  end.

(** [s.replace(old, new)] for a non-empty [old = c :: old']: every
    non-overlapping occurrence, from the left, is replaced. *)
Equations? replace_on (c : char) (old new : str) (s : str) : str
  by wf (length s) lt :=
  replace_on c old new s with inspect (cut (c :: old) s) := {
    | exist _ None _ => s
    | exist _ (Some (b, a)) H => b ++ new ++ replace_on c old new a }.
Proof. by eapply cut_shorter. Qed.

Definition CR : char := 13%N.
Definition LF : char := 10%N.

(** [text.replace('\r\n', '\n')]. *)
Definition replace_crlf (s : str) : str := replace_on CR [LF] [LF] s.

(** [sep.join(parts)]. *)
Fixpoint join (sep : str) (parts : list str) : str :=
  match parts with
  | [] => []
  | [p] => p
  | p :: rest => p ++ sep ++ join sep rest
  end.

(** [x] added in front of the first segment of a segment list. *)
Definition cons_head (x : char) (segs : list str) : list str :=
  match segs with
  | [] => [[x]]
  | h :: t => (x :: h) :: t
  end.

End PyStr.

(** ** queue_manager.py *)

Module QueueManager.

(** The Qt signals of the class; a method returns the ones it emitted, in
    order.  The slots connected to them in [main.py] only read the queue. *)
Inductive signal :=
| queue_changed
| queue_empty
| line_pasted (line : str).

Definition DELIMITER_NEWLINE : str := [PyStr.LF].
Definition DELIMITER_COMMA : str := lit ",".
Definition DELIMITER_TAB : str := [9%N].
Definition DELIMITER_SEMICOLON : str := lit ";".

(** The attributes of an instance.  [_queue] and [_original_queue] are two
    distinct list objects at all times (the code assigns [.copy()]s and a
    fresh comprehension), so each is a value of its own here. *)
Record t := mk {
  _queue : list str;
  _original_queue : list str;
  _delimiter : str;
  _loop_mode : bool;
  _current_index : Z;
}.

Definition __init__ : t :=
  {| _queue := []; _original_queue := []; _delimiter := DELIMITER_NEWLINE;
     _loop_mode := false; _current_index := 0 |}.

Definition delimiter (self : t) : str := _delimiter self.

(** [self._delimiter = value if value else self.DELIMITER_NEWLINE] *)
Definition set_delimiter (value : str) (self : t) : t :=
  {| _queue := _queue self; _original_queue := _original_queue self;
     _delimiter := if PyStr.truthy value then value else DELIMITER_NEWLINE;
     _loop_mode := _loop_mode self; _current_index := _current_index self |}.

Definition loop_mode (self : t) : bool := _loop_mode self.

Definition set_loop_mode (value : bool) (self : t) : t :=
  {| _queue := _queue self; _original_queue := _original_queue self;
     _delimiter := _delimiter self;
     _loop_mode := value; _current_index := _current_index self |}.

(** [[line.strip() for line in lines if line.strip()]] *)
Definition stripped_lines (lines : list str) : list str :=
  List.map PyStr.strip
    (List.filter (fun line => PyStr.truthy (PyStr.strip line)) lines).

(** The lines of [text] for the stored delimiter [d]: with the newline
    delimiter, ['\r\n'] is first replaced by ['\n']. *)
Definition split_lines (text d : str) : result (list str) :=
  if PyStr.eqb d DELIMITER_NEWLINE
  then PyStr.split (PyStr.replace_crlf text) [PyStr.LF]
  else PyStr.split text d.

(** [load_text]: the delimiter argument, when given, is stored first and
    stays stored when [split] then raises. *)
Definition load_text (text : str) (delimiter : option str) (self : t)
  : result nat * t * list signal :=
  let d := match delimiter with Some d => d | None => _delimiter self end in
  let self1 :=
    {| _queue := _queue self; _original_queue := _original_queue self;
       _delimiter := d;
       _loop_mode := _loop_mode self; _current_index := _current_index self |} in
  match split_lines text d with
  | Raise e => (Raise e, self1, [])
  | Ok lines =>
      let q := stripped_lines lines in
      (Ok (length q),
       {| _queue := q; _original_queue := q; _delimiter := d;
          _loop_mode := _loop_mode self; _current_index := 0 |},
       [queue_changed])
  end.

Definition peek_next (self : t) : option str :=
  match _queue self with
  | line :: _ => Some line
  | [] => None
  end.

(** The second half of [pop_next], [if self._queue: ...], entered with the
    signals [emitted] so far. *)
Definition pop_front (self : t) (emitted : list signal)
  : option str * t * list signal :=
  match _queue self with
  | line :: rest =>
      (Some line,
       {| _queue := rest; _original_queue := _original_queue self;
          _delimiter := _delimiter self;
          _loop_mode := _loop_mode self; _current_index := _current_index self |},
       emitted ++ [line_pasted line; queue_changed] ++
       (if PyStr.list_truthy rest || _loop_mode self then [] else [queue_empty]))
  | [] => (None, self, emitted)
  end.

Definition pop_next (self : t) : option str * t * list signal :=
  match _queue self with
  | [] =>
      if _loop_mode self && PyStr.list_truthy (_original_queue self) then
        pop_front
          {| _queue := _original_queue self;
             _original_queue := _original_queue self;
             _delimiter := _delimiter self;
             _loop_mode := _loop_mode self;
             _current_index := _current_index self |}
          [queue_changed]
      else (None, self, [queue_empty])
  | _ :: _ => pop_front self []
  end.

Definition get_count (self : t) : nat := length (_queue self).

Definition get_total (self : t) : nat := length (_original_queue self).

(** [total - remaining + 1 if total > 0 else 0], on Python integers. *)
Definition get_current_position (self : t) : Z :=
  let total := Z.of_nat (get_total self) in
  let remaining := Z.of_nat (get_count self) in
  if total >? 0 then total - remaining + 1 else 0.

Definition is_empty (self : t) : bool :=
  (length (_queue self) =? 0)%nat.

Definition clear (self : t) : t * list signal :=
  ({| _queue := []; _original_queue := []; _delimiter := _delimiter self;
      _loop_mode := _loop_mode self; _current_index := 0 |},
   [queue_changed; queue_empty]).

Definition get_all_lines (self : t) : list str := _queue self.

(** *** Sequences of operations *)

Inductive op :=
| LoadText (text : str) (delimiter : option str)
| PeekNext
| PopNext
| Clear
| SetDelimiter (value : str)
| SetLoopMode (value : bool).

(** The instance after one operation (the returned value and the signals
    are dropped; a raising [load_text] keeps what it had stored). *)
Definition step (o : op) (self : t) : t :=
  match o with
  | LoadText text delimiter => (load_text text delimiter self).1.2
  | PeekNext => self
  | PopNext => (pop_next self).1.2
  | Clear => (clear self).1
  | SetDelimiter value => set_delimiter value self
  | SetLoopMode value => set_loop_mode value self
  end.

(** The instances reached after each operation of [ops], in order. *)
Fixpoint states_after (ops : list op) (self : t) : list t :=
  match ops with
  | [] => []
  | o :: ops' => step o self :: states_after ops' (step o self)
  end.

Definition run (ops : list op) (self : t) : t := fold_left (fun s o => step o s) ops self.

(** [n] calls of [pop_next] in a row: what they returned, in order, and the
    instance they leave. *)
Fixpoint pop_many (n : nat) (self : t) : list (option str) * t :=
  match n with
  | O => ([], self)
  | S n' =>
      let '(r, self', _) := pop_next self in
      let '(rs, self'') := pop_many n' self' in
      (r :: rs, self'')
  end.

End QueueManager.

(** ** clipboard_monitor.py *)

Module ClipboardMonitor.

(** The system clipboard, as [pyperclip] and Qt see it.  [available] tells
    whether the platform's copy/paste mechanism works ([pyperclip] raises
    when it does not); [writes] records the texts written through
    [pyperclip.copy], most recent first. *)
Record clipboard := mk_clipboard {
  content : str;
  available : bool;
  writes : list str;
}.

Definition pyperclip_copy (text : str) (w : clipboard) : result unit * clipboard :=
  if available w
  then (Ok tt, {| content := text; available := true; writes := text :: writes w |})
  else (Raise PyperclipException, w).

Definition pyperclip_paste (w : clipboard) : result str :=
  if available w then Ok (content w) else Raise PyperclipException.

(** [set_clipboard]: [True] on success, [False] when [pyperclip.copy] raised. *)
Definition set_clipboard (text : str) (w : clipboard) : bool * clipboard :=
  match pyperclip_copy text w with
  | (Ok _, w') => (true, w')
  | (Raise _, w') => (false, w')
  end.

(** [get_clipboard]: the pasted text, or the empty string when the paste
    gives nothing or raises. *)
Definition get_clipboard (w : clipboard) : str :=
  match pyperclip_paste w with
  | Ok s => if PyStr.truthy s then s else []
  | Raise _ => []
  end.

(** The attributes of a [ClipboardMonitor]. *)
Record t := mk {
  _min_lines : Z;
  _paused : bool;
  _last_content : str;
}.

Definition __init__ (min_lines : Z) : t :=
  {| _min_lines := min_lines; _paused := false; _last_content := [] |}.

Definition set_min_lines (value : Z) (self : t) : t :=
  {| _min_lines := Z.max 1 value; _paused := _paused self;
     _last_content := _last_content self |}.

Definition pause (self : t) : t :=
  if negb (_paused self)
  then {| _min_lines := _min_lines self; _paused := true;
          _last_content := _last_content self |}
  else self.

Definition resume (self : t) : t :=
  if _paused self
  then {| _min_lines := _min_lines self; _paused := false;
          _last_content := _last_content self |}
  else self.

Definition update_last_content (content : str) (self : t) : t :=
  {| _min_lines := _min_lines self; _paused := _paused self;
     _last_content := content |}.

(** [text.count('\n')] *)
Definition count_newlines (text : str) : nat :=
  length (List.filter (fun c => (c =? PyStr.LF)%N) text).

(** The slot of the clipboard's [dataChanged] signal; the second component
    is the argument of [content_detected] when it is emitted. *)
Definition _on_data_changed (w : clipboard) (self : t) : t * option str :=
  if _paused self then (self, None)
  else
    let text := content w in
    if negb (PyStr.truthy text) then (self, None)
    else if PyStr.eqb text (_last_content self) then (self, None)
    else
      let self' := update_last_content text self in
      let line_count := Z.of_nat (count_newlines text) + 1 in
      if line_count >=? _min_lines self then (self', Some text) else (self', None).

End ClipboardMonitor.

(** ** settings.py *)

Module Settings.

(** The Python values a settings dictionary holds: what [json.load] returns.
    A float is [m * 2^e]. *)
Inductive pyval :=
| PyNone
| PyBool (b : bool)
| PyInt (z : Z)
| PyFloat (m e : Z)
| PyString (s : str)
| PyList (l : list pyval)
| PyDict (d : gmap str pyval).

(** [v == s] for a string [s]: only an equal string compares equal. *)
Definition eq_str (v : pyval) (s : str) : bool :=
  match v with
  | PyString s' => PyStr.eqb s' s
  | _ => false
  end.

(** [DEFAULT_SETTINGS]; [0.9] is the double [0x1.ccccccccccccdp-1]. *)
Definition DEFAULT_SETTINGS : gmap str pyval :=
  list_to_map [
    (lit "delimiter", PyString (lit "newline"));
    (lit "loop_mode", PyBool false);
    (lit "show_indicator", PyBool true);
    (lit "min_lines", PyInt 2);
    (lit "indicator_opacity", PyFloat 8106479329266893 (-53));
    (lit "indicator_position", PyString (lit "top-right"));
    (lit "hotkey", PyString (lit "F9"));
    (lit "paste_delay", PyInt 350)
  ].

(** What is stored in [settings.json]: text that [json.load] rejects, or the
    value it decodes to. *)
Inductive stored :=
| Garbage
| Json (v : pyval).

(** What [json.dump] can print: every value except an integer of more than
    4300 decimal digits, on which CPython's conversion to text raises
    [ValueError] (its default limit), also inside a list or a dictionary. *)
Fixpoint dumpable (v : pyval) : bool :=
  match v with
  | PyInt z => Z.abs z <? 10 ^ 4300
  | PyList l => forallb dumpable l
  | PyDict d => map_fold (fun _ v' acc => dumpable v' && acc) true d
  | _ => true
  end.

(** The part of the file system the module touches.
    - [mkdir_ok]: [get_config_dir] returns (its [mkdir] succeeds);
    - [can_stat]: the configuration directory can be searched; when it
      cannot, [config_file.exists()] raises ([pathlib] re-raises a
      permission error) and no [open] succeeds;
    - [file]: the content of [settings.json], [None] when it does not exist;
    - [can_read], [can_write]: whether [open] succeeds in the respective
      mode in a directory that can be searched;
    - [write_completes]: whether the writes of [json.dump] and the closing
      of the file succeed once it is open (no I/O error, room on the
      disk). *)
Record disk := mk_disk {
  mkdir_ok : bool;
  can_stat : bool;
  file : option stored;
  can_read : bool;
  can_write : bool;
  write_completes : bool;
}.

(** [get_config_file()] is not guarded by a [try]: a failing [mkdir]
    propagates to the caller. *)
Definition get_config_file (d : disk) : result unit :=
  if mkdir_ok d then Ok tt else Raise OSError.

(** [config_file.exists()]: raises when the directory cannot be searched. *)
Definition config_file_exists (d : disk) : result bool :=
  if can_stat d
  then Ok (match file d with Some _ => true | None => false end)
  else Raise OSError.

(** [{**DEFAULT_SETTINGS, **loaded}]: [TypeError] unless [loaded] is a
    mapping; its keys win. *)
Definition merge_over_defaults (loaded : pyval) : result (gmap str pyval) :=
  match loaded with
  | PyDict l => Ok (l ∪ DEFAULT_SETTINGS)
  | _ => Raise TypeError
  end.

(** The body of the [try] in [load], on a file that exists. *)
Definition read_settings (d : disk) (st : stored) : result (gmap str pyval) :=
  if can_stat d && can_read d then
    match st with
    | Garbage => Raise JSONDecodeError
    | Json loaded => merge_over_defaults loaded
    end
  else Raise OSError.

(** [Settings.load]: the new value of [self._settings].  The calls of
    [get_config_file] and of [exists] stand before the [try]: what they
    raise leaves [load]. *)
Definition load (d : disk) : result (gmap str pyval) :=
  match get_config_file d with
  | Raise e => Raise e
  | Ok _ =>
      match config_file_exists d with
      | Raise e => Raise e
      | Ok _ =>
          match file d with
          | Some st =>
              match read_settings d st with
              | Ok settings => Ok settings
              | Raise _ => Ok DEFAULT_SETTINGS
              end
          | None => Ok DEFAULT_SETTINGS
          end
      end
  end.

(** [Settings()]: [__init__] copies the defaults, then loads. *)
Definition __init__ (d : disk) : result (gmap str pyval) := load d.

Definition with_file (st : stored) (d : disk) : disk :=
  {| mkdir_ok := mkdir_ok d; can_stat := can_stat d; file := Some st;
     can_read := can_read d; can_write := can_write d;
     write_completes := write_completes d |}.

(** [Settings.save]: what [open] or [json.dump] raises is caught.  When
    [open] fails the file is as before; once it is open the old content is
    gone, and a [json.dump] that raises (a value it cannot print, a failing
    write) leaves a text that is not JSON. *)
Definition save (self : gmap str pyval) (d : disk) : result unit * disk :=
  match get_config_file d with
  | Raise e => (Raise e, d)
  | Ok _ =>
      if can_stat d && can_write d then
        if dumpable (PyDict self) && write_completes d
        then (Ok tt, with_file (Json (PyDict self)) d)
        else (Ok tt, with_file Garbage d)
      else (Ok tt, d)
  end.

Definition get (key : str) (dflt : pyval) (self : gmap str pyval) : pyval :=
  default dflt (self !! key).

(** [Settings.set]: the dictionary is updated before [save] can raise. *)
Definition set (key : str) (value : pyval) (self : gmap str pyval) (d : disk)
  : result unit * gmap str pyval * disk :=
  let self' := <[key := value]> self in
  let '(r, d') := save self' d in
  (r, self', d').

Definition reset (d : disk) : result unit * gmap str pyval * disk :=
  let '(r, d') := save DEFAULT_SETTINGS d in
  (r, DEFAULT_SETTINGS, d').

Definition delimiter (self : gmap str pyval) : pyval :=
  get (lit "delimiter") (PyString (lit "newline")) self.

Definition loop_mode (self : gmap str pyval) : pyval :=
  get (lit "loop_mode") (PyBool false) self.

Definition show_indicator (self : gmap str pyval) : pyval :=
  get (lit "show_indicator") (PyBool true) self.

Definition min_lines (self : gmap str pyval) : pyval :=
  get (lit "min_lines") (PyInt 2) self.

(** *** SettingsDialog *)

(** The widget values [_save_settings] reads. *)
Record dialog := mk_dialog {
  delimiter_combo : nat;      (* currentIndex, 0..4 *)
  custom_delimiter : str;     (* text of the line edit *)
  loop_mode_check : bool;
  min_lines_spin : Z;
  paste_delay_spin : Z;
  show_indicator_check : bool;
  position_combo : nat;       (* currentIndex, 0..3 *)
}.

(** A sequence of [Settings.set] calls: the first one that raises ends it. *)
Definition and_then
  (step1 : result unit * gmap str pyval * disk)
  (step2 : gmap str pyval -> disk -> result unit * gmap str pyval * disk)
  : result unit * gmap str pyval * disk :=
  match step1 with
  | (Ok _, self, d) => step2 self d
  | (Raise e, self, d) => (Raise e, self, d)
  end.

Definition delimiter_names : list str :=
  [lit "newline"; lit "comma"; lit "tab"; lit "semicolon"; lit "custom"].

Definition position_names : list str :=
  [lit "top-right"; lit "top-left"; lit "bottom-right"; lit "bottom-left"].

(** [SettingsDialog._save_settings], up to the emission of
    [settings_changed].  The combo boxes hold exactly the listed entries, so
    the list indexing cannot fail. *)
Definition _save_settings (ui : dialog) (self : gmap str pyval) (d : disk)
  : result unit * gmap str pyval * disk :=
  and_then (set (lit "delimiter")
              (PyString (nth (delimiter_combo ui) delimiter_names [])) self d)
  (fun self d =>
  and_then (if eq_str (delimiter self) (lit "custom")
            then set (lit "custom_delimiter") (PyString (custom_delimiter ui)) self d
            else (Ok tt, self, d))
  (fun self d =>
  and_then (set (lit "loop_mode") (PyBool (loop_mode_check ui)) self d)
  (fun self d =>
  and_then (set (lit "min_lines") (PyInt (min_lines_spin ui)) self d)
  (fun self d =>
  and_then (set (lit "paste_delay") (PyInt (paste_delay_spin ui)) self d)
  (fun self d =>
  and_then (set (lit "show_indicator") (PyBool (show_indicator_check ui)) self d)
  (fun self d =>
  set (lit "indicator_position")
      (PyString (nth (position_combo ui) position_names [])) self d)))))).

End Settings.

(** ** hotkey_handler.py *)

Module HotkeyHandler.

(** [terminal_indicators] of [is_terminal_window]. *)
Definition terminal_indicators : list str :=
  [lit "terminal"; lit "konsole"; lit "gnome-terminal"; lit "xterm"; lit "kitty";
   lit "alacritty"; lit "terminator"; lit "x-terminator"; lit "tilix"; lit "urxvt";
   lit "st"; lit "foot"; lit "wezterm"; lit "hyper"; lit "iterm"; lit "term"; lit "rxvt";
   lit "sakura"; lit "guake"; lit "tilda"; lit "yakuake"; lit "terminology"].

(** [is_terminal_window], as a function of what [get_active_window_class]
    returned (the lower-cased class and title of the focused window, or the
    empty string when [xdotool] failed). *)
Definition is_terminal_window (window_info : str) : bool :=
  existsb (fun term => PyStr.contains term window_info) terminal_indicators.

(** The members of [pynput.keyboard.Key], the enumeration of the keys that
    have no character ([Key_alt] is [Key.alt], and so on). *)
Inductive Key :=
| Key_alt | Key_alt_l | Key_alt_r | Key_alt_gr
| Key_backspace | Key_caps_lock
| Key_cmd | Key_cmd_l | Key_cmd_r
| Key_ctrl | Key_ctrl_l | Key_ctrl_r
| Key_delete | Key_down | Key_end | Key_enter | Key_esc
| Key_f1 | Key_f2 | Key_f3 | Key_f4 | Key_f5 | Key_f6 | Key_f7 | Key_f8
| Key_f9 | Key_f10 | Key_f11 | Key_f12 | Key_f13 | Key_f14 | Key_f15
| Key_f16 | Key_f17 | Key_f18 | Key_f19 | Key_f20
| Key_home | Key_left | Key_page_down | Key_page_up | Key_right
| Key_shift | Key_shift_l | Key_shift_r
| Key_space | Key_tab | Key_up
| Key_media_play_pause | Key_media_volume_mute | Key_media_volume_down
| Key_media_volume_up | Key_media_previous | Key_media_next
| Key_insert | Key_menu | Key_num_lock | Key_pause | Key_print_screen
| Key_scroll_lock.

(** All members, for exhaustive checks. *)
Definition all_Keys : list Key :=
  [Key_alt; Key_alt_l; Key_alt_r; Key_alt_gr; Key_backspace; Key_caps_lock;
   Key_cmd; Key_cmd_l; Key_cmd_r; Key_ctrl; Key_ctrl_l; Key_ctrl_r;
   Key_delete; Key_down; Key_end; Key_enter; Key_esc;
   Key_f1; Key_f2; Key_f3; Key_f4; Key_f5; Key_f6; Key_f7; Key_f8;
   Key_f9; Key_f10; Key_f11; Key_f12; Key_f13; Key_f14; Key_f15;
   Key_f16; Key_f17; Key_f18; Key_f19; Key_f20;
   Key_home; Key_left; Key_page_down; Key_page_up; Key_right;
   Key_shift; Key_shift_l; Key_shift_r; Key_space; Key_tab; Key_up;
   Key_media_play_pause; Key_media_volume_mute; Key_media_volume_down;
   Key_media_volume_up; Key_media_previous; Key_media_next;
   Key_insert; Key_menu; Key_num_lock; Key_pause; Key_print_screen;
   Key_scroll_lock].

(** The [name] attribute of an enumeration member. *)
Definition name (k : Key) : str :=
  lit match k with
  | Key_alt => "alt" | Key_alt_l => "alt_l" | Key_alt_r => "alt_r"
  | Key_alt_gr => "alt_gr"
  | Key_backspace => "backspace" | Key_caps_lock => "caps_lock"
  | Key_cmd => "cmd" | Key_cmd_l => "cmd_l" | Key_cmd_r => "cmd_r"
  | Key_ctrl => "ctrl" | Key_ctrl_l => "ctrl_l" | Key_ctrl_r => "ctrl_r"
  | Key_delete => "delete" | Key_down => "down" | Key_end => "end"
  | Key_enter => "enter" | Key_esc => "esc"
  | Key_f1 => "f1" | Key_f2 => "f2" | Key_f3 => "f3" | Key_f4 => "f4"
  | Key_f5 => "f5" | Key_f6 => "f6" | Key_f7 => "f7" | Key_f8 => "f8"
  | Key_f9 => "f9" | Key_f10 => "f10" | Key_f11 => "f11" | Key_f12 => "f12"
  | Key_f13 => "f13" | Key_f14 => "f14" | Key_f15 => "f15" | Key_f16 => "f16"
  | Key_f17 => "f17" | Key_f18 => "f18" | Key_f19 => "f19" | Key_f20 => "f20"
  | Key_home => "home" | Key_left => "left" | Key_page_down => "page_down"
  | Key_page_up => "page_up" | Key_right => "right"
  | Key_shift => "shift" | Key_shift_l => "shift_l" | Key_shift_r => "shift_r"
  | Key_space => "space" | Key_tab => "tab" | Key_up => "up"
  | Key_media_play_pause => "media_play_pause"
  | Key_media_volume_mute => "media_volume_mute"
  | Key_media_volume_down => "media_volume_down"
  | Key_media_volume_up => "media_volume_up"
  | Key_media_previous => "media_previous"
  | Key_media_next => "media_next"
  | Key_insert => "insert" | Key_menu => "menu" | Key_num_lock => "num_lock"
  | Key_pause => "pause" | Key_print_screen => "print_screen"
  | Key_scroll_lock => "scroll_lock"
  end.

#[global] Instance Key_eq_dec : EqDecision Key.
Proof. solve_decision. Defined.

(** What the keyboard listener hands to [_on_press]: a [Key] member, a
    [KeyCode] (virtual key code, character, dead-key flag), or [None]. *)
Inductive key :=
| Special (k : Key)
| KeyCode (vk : option Z) (char : option str) (is_dead : bool)
| NoKey.

(** [key1 == key2].  Enumeration members are equal to themselves only;
    [KeyCode.__eq__] compares character and dead-key flag when both have a
    character, and the virtual key codes otherwise. *)
Definition key_eqb (key1 key2 : key) : bool :=
  match key1, key2 with
  | Special a, Special b => bool_decide (a = b)
  | KeyCode vk1 char1 dead1, KeyCode vk2 char2 dead2 =>
      match char1, char2 with
      | Some c1, Some c2 => PyStr.eqb c1 c2 && Bool.eqb dead1 dead2
      | _, _ => bool_decide (vk1 = vk2)
      end
  | NoKey, NoKey => true
  | _, _ => false
  end.

Section WithLower.

(** [str.lower], the Unicode lower-casing of the Python runtime. *)
Variable lower : str -> str.

(** [_keys_match].  Only [Key] members have a [name], only [KeyCode]s have
    a [char]. *)
Definition _keys_match (key1 key2 : key) : bool :=
  if key_eqb key1 key2 then true
  else
    match key1, key2 with
    | Special a, Special b =>
        let name1 := name a in
        let name2 := name b in
        if PyStr.contains (lit "cmd") name1 && PyStr.contains (lit "cmd") name2 then true
        else if PyStr.contains (lit "ctrl") name1 && PyStr.contains (lit "ctrl") name2 then true
        else if PyStr.contains (lit "alt") name1 && PyStr.contains (lit "alt") name2 then true
        else if PyStr.contains (lit "shift") name1 && PyStr.contains (lit "shift") name2 then true
        else false
    | KeyCode _ char1 _, KeyCode _ char2 _ =>
        match char1, char2 with
        | Some c1, Some c2 =>
            if PyStr.truthy c1 && PyStr.truthy c2
            then PyStr.eqb (lower c1) (lower c2)
            else false
        | _, _ => false
        end
    | _, _ => false
    end.

(** [_check_hotkey], on the elements of [self._hotkey_combination] and of
    [self._current_keys] in the order the two loops visit them. *)
Definition _check_hotkey (_hotkey_combination _current_keys : list key) : bool :=
  forallb (fun hk => existsb (fun ck => _keys_match hk ck) _current_keys)
          _hotkey_combination.

End WithLower.

End HotkeyHandler.

(** ** floating_indicator.py *)

(** [str(n)] and [f"{n}"] for a Python integer: its decimal numeral. *)
Definition str_of_int (z : Z) : str := lit (NilZero.string_of_int (Z.to_int z)).

Module FloatingIndicator.

(** The texts of the three labels and whether the window is shown. *)
Record t := mk {
  preview_label : str;
  count_label : str;
  hint_label : str;
  isVisible : bool;
}.

(** The labels as [_setup_ui] creates them; the window is not shown yet. *)
Definition __init__ : t :=
  {| preview_label := lit "Ready"; count_label := lit "0/0";
     hint_label := lit "F9 to paste"; isVisible := false |}.

Definition max_chars : nat := 30.

Definition update_status (next_line : str) (current total : Z) (self : t) : t :=
  let display_line := PyStr.strip next_line in
  let display_line :=
    if (max_chars <? length display_line)%nat
    then firstn (max_chars - 3) display_line ++ lit "..."
    else display_line in
  {| preview_label := display_line;
     count_label := str_of_int current ++ lit "/" ++ str_of_int total;
     hint_label := lit "F9 to paste";
     isVisible := true |}.

Definition set_empty (self : t) : t :=
  {| preview_label := lit "Queue empty"; count_label := lit "0/0";
     hint_label := lit "Copy multi-line text to start";
     isVisible := isVisible self |}.

Definition set_ready (self : t) : t :=
  {| preview_label := lit "Ready"; count_label := lit "0/0";
     hint_label := lit "Copy multi-line text to start";
     isVisible := isVisible self |}.

End FloatingIndicator.

(** ** tray_icon.py *)

Module TrayIcon.

(** The icon shown: the default one, or the one drawn by
    [create_icon_with_count] for a count. *)
Inductive icon :=
| default_icon
| icon_with_count (count : Z).

(** The texts of the status entry, the preview entry and the tool tip, and
    the icon. *)
Record t := mk {
  status_action : str;
  preview_action : str;
  toolTip : str;
  icon_shown : icon;
}.

Definition __init__ : t :=
  {| status_action := lit "Queue: Empty"; preview_action := lit "Next: (none)";
     toolTip := lit "QueueClip - Ready"; icon_shown := default_icon |}.

Definition update_status (next_line : str) (current total : Z) (self : t) : t :=
  if total >? 0 then
    let preview :=
      if (30 <? length next_line)%nat then firstn 30 next_line ++ lit "..."
      else next_line in
    {| status_action :=
         lit "Queue: " ++ str_of_int (total - current + 1) ++ lit " remaining";
       preview_action := lit "Next: " ++ preview;
       toolTip := lit "QueueClip - " ++ str_of_int current ++ lit "/"
                  ++ str_of_int total ++ lit ": " ++ preview;
       icon_shown := icon_with_count (total - current + 1) |}
  else
    {| status_action := lit "Queue: Empty"; preview_action := lit "Next: (none)";
       toolTip := lit "QueueClip - Ready"; icon_shown := default_icon |}.

Definition set_empty (self : t) : t := update_status [] 0 0 self.

End TrayIcon.

(** ** main.py *)

Module QueueClipApp.

(** The components of the application that the handlers below use. *)
Record t := mk {
  settings : gmap str Settings.pyval;
  queue_manager : QueueManager.t;
  clipboard_monitor : ClipboardMonitor.t;
}.

Definition with_queue_manager (qm : QueueManager.t) (self : t) : t :=
  {| settings := settings self; queue_manager := qm;
     clipboard_monitor := clipboard_monitor self |}.

Definition with_clipboard_monitor (m : ClipboardMonitor.t) (self : t) : t :=
  {| settings := settings self; queue_manager := queue_manager self;
     clipboard_monitor := m |}.

(** The local [delimiter_map] of [_set_delimiter_from_settings]. *)
Definition delimiter_map : gmap str str :=
  list_to_map [
    (lit "newline", QueueManager.DELIMITER_NEWLINE);
    (lit "comma", QueueManager.DELIMITER_COMMA);
    (lit "tab", QueueManager.DELIMITER_TAB);
    (lit "semicolon", QueueManager.DELIMITER_SEMICOLON)
  ].

(** [delimiter_map.get(delimiter, QueueManager.DELIMITER_NEWLINE)]: a list or
    a dictionary is not hashable; any other value that is not one of the four
    keys gets the default. *)
Definition delimiter_map_get (delimiter : Settings.pyval) : result str :=
  match delimiter with
  | Settings.PyString s => Ok (default QueueManager.DELIMITER_NEWLINE (delimiter_map !! s))
  | Settings.PyList _ | Settings.PyDict _ => Raise TypeError
  | _ => Ok QueueManager.DELIMITER_NEWLINE
  end.

Definition _set_delimiter_from_settings (self : t) : result t :=
  match delimiter_map_get (Settings.delimiter (settings self)) with
  | Ok d => Ok (with_queue_manager (QueueManager.set_delimiter d (queue_manager self)) self)
  | Raise e => Raise e
  end.

(** [_on_clipboard_content]: the slot of the monitor's [content_detected]. *)
Definition _on_clipboard_content (content : str) (self : t) : result t :=
  match QueueManager.load_text content None (queue_manager self) with
  | (Ok _, qm, _) => Ok (with_queue_manager qm self)
  | (Raise e, _, _) => Raise e
  end.

(** The closure [restore_clipboard] of [_on_paste_triggered]; it captures
    [current_line] and [original_clipboard]. *)
Definition restore_clipboard (current_line original_clipboard : str)
  (self : t) (w : ClipboardMonitor.clipboard) : t * ClipboardMonitor.clipboard :=
  let current_clip := ClipboardMonitor.get_clipboard w in
  let '(m, w') :=
    if PyStr.eqb current_clip current_line then
      let '(_, w') := ClipboardMonitor.set_clipboard original_clipboard w in
      (ClipboardMonitor.update_last_content original_clipboard (clipboard_monitor self), w')
    else
      (ClipboardMonitor.update_last_content current_clip (clipboard_monitor self), w) in
  (with_clipboard_monitor (ClipboardMonitor.resume m) self, w').

(** A pending [QTimer.singleShot(delay, restore_clipboard)]. *)
Record timer := mk_timer {
  delay : Z;
  current_line : str;
  original_clipboard : str;
}.

(** The values of a C [int], the type of the delay that
    [QTimer.singleShot] takes. *)
Definition c_int (z : Z) : bool := (-2147483648 <=? z) && (z <=? 2147483647).

(** [_on_paste_triggered].  [simulate_paste] sends keystrokes to the focused
    window and catches its own errors; it changes none of the state here. *)
Definition _on_paste_triggered (self : t) (w : ClipboardMonitor.clipboard)
  : t * ClipboardMonitor.clipboard * option timer :=
  if QueueManager.is_empty (queue_manager self) then (self, w, None)
  else
    match QueueManager.peek_next (queue_manager self) with
    | None => (self, w, None)
    | Some current_line =>
        if negb (PyStr.truthy current_line) then (self, w, None)
        else
          let original_clipboard := ClipboardMonitor.get_clipboard w in
          let m := ClipboardMonitor.pause (clipboard_monitor self) in
          let '(_, w) := ClipboardMonitor.set_clipboard current_line w in
          let '(_, qm, _) := QueueManager.pop_next (queue_manager self) in
          let self := with_queue_manager qm (with_clipboard_monitor m self) in
          match Settings.get (lit "paste_delay") (Settings.PyInt 350) (settings self) with
          | Settings.PyInt delay =>
              if c_int delay
              then (self, w, Some (mk_timer delay current_line original_clipboard))
              else
                (* the delay does not fit the C [int] of [QTimer.singleShot]:
                   the [except] branch *)
                (with_clipboard_monitor (ClipboardMonitor.resume m) self, w, None)
          | Settings.PyBool b =>
              (self, w, Some (mk_timer (Z.b2z b) current_line original_clipboard))
          | _ =>
              (* [QTimer.singleShot] rejects the delay: the [except] branch *)
              (with_clipboard_monitor (ClipboardMonitor.resume m) self, w, None)
          end
    end.

(** [_on_delimiter_changed], the slot of the tray menu's delimiter entries:
    the name is stored in the settings (and saved), then applied to the
    queue manager.  When storing raises, the dictionary has the new name
    already and the queue manager is not touched. *)
Definition _on_delimiter_changed (delimiter : str) (self : t) (d : Settings.disk)
  : result unit * t * Settings.disk :=
  let '(r, settings', d') :=
    Settings.set (lit "delimiter") (Settings.PyString delimiter) (settings self) d in
  let self1 :=
    {| settings := settings'; queue_manager := queue_manager self;
       clipboard_monitor := clipboard_monitor self |} in
  match r with
  | Raise e => (Raise e, self1, d')
  | Ok _ =>
      match _set_delimiter_from_settings self1 with
      | Ok self2 => (Ok tt, self2, d')
      | Raise e => (Raise e, self1, d')
      end
  end.

Definition _on_clear_queue (self : t) : t :=
  with_queue_manager (QueueManager.clear (queue_manager self)).1 self.

End QueueClipApp.

(** ** main.py: the user interface mirrors *)

Module QueueClipUI.

(** [_update_ui], the slot of [queue_changed]: the indicator and the tray
    icon after it ran. *)
Definition _update_ui (qm : QueueManager.t)
  (indicator : FloatingIndicator.t) (tray_icon : TrayIcon.t)
  : FloatingIndicator.t * TrayIcon.t :=
  let next_line := QueueManager.peek_next qm in
  let current := QueueManager.get_current_position qm in
  let total := Z.of_nat (QueueManager.get_total qm) in
  match next_line with
  | Some line =>
      if PyStr.truthy line
      then (FloatingIndicator.update_status line current total indicator,
            TrayIcon.update_status line current total tray_icon)
      else (FloatingIndicator.set_empty indicator, TrayIcon.set_empty tray_icon)
  | None => (FloatingIndicator.set_empty indicator, TrayIcon.set_empty tray_icon)
  end.

(** [_on_queue_empty], the slot of [queue_empty]. *)
Definition _on_queue_empty
  (indicator : FloatingIndicator.t) (tray_icon : TrayIcon.t)
  : FloatingIndicator.t * TrayIcon.t :=
  (FloatingIndicator.set_empty indicator, TrayIcon.set_empty tray_icon).

End QueueClipUI.

(** * Properties *)

(** ** Python string operations *)

Module PyStrFacts.
Import PyStr.

Lemma eqb_true a b : eqb a b = true <-> a = b.
Proof. unfold eqb. apply bool_decide_eq_true. Qed.

Lemma eqb_false a b : eqb a b = false <-> a <> b.
Proof. unfold eqb. apply bool_decide_eq_false. Qed.

(** *** Unfolding equations of the scanning functions *)

Lemma split_on_eq c sep s :
  split_on c sep s =
  match cut (c :: sep) s with
  | None => [s]
  | Some (b, a) => b :: split_on c sep a
  end.
Proof.
  rewrite split_on_equation_1.
  change (cut (c :: sep) s) with (proj1_sig (inspect (cut (c :: sep) s))) at 2.
  destruct (inspect (cut (c :: sep) s)) as [[[b a]|] e]; reflexivity.
Qed.

Lemma replace_on_eq c old new s :
  replace_on c old new s =
  match cut (c :: old) s with
  | None => s
  | Some (b, a) => b ++ new ++ replace_on c old new a
  end.
Proof.
  rewrite replace_on_equation_1.
  change (cut (c :: old) s) with (proj1_sig (inspect (cut (c :: old) s))) at 2.
  destruct (inspect (cut (c :: old) s)) as [[[b a]|] e]; reflexivity.
Qed.

(** *** The scan, one character at a time *)

Lemma cut_match sep s :
  startswith sep s = true -> cut sep s = Some ([], skipn (length sep) s).
Proof. destruct s; simpl; intros ->; reflexivity. Qed.

Lemma cut_nomatch sep x s :
  startswith sep (x :: s) = false ->
  cut sep (x :: s) =
  match cut sep s with Some (b, a) => Some (x :: b, a) | None => None end.
Proof. simpl. intros ->. reflexivity. Qed.

Lemma split_on_nil c sep : split_on c sep [] = [[]].
Proof. rewrite split_on_eq. reflexivity. Qed.

Lemma split_on_match c sep s :
  startswith (c :: sep) s = true ->
  split_on c sep s = [] :: split_on c sep (skipn (S (length sep)) s).
Proof. intros H. rewrite split_on_eq, (cut_match _ _ H). reflexivity. Qed.

Lemma split_on_nomatch c sep x s :
  startswith (c :: sep) (x :: s) = false ->
  split_on c sep (x :: s) = cons_head x (split_on c sep s).
Proof.
  intros H. rewrite split_on_eq, (cut_nomatch _ _ _ H), (split_on_eq c sep s).
  destruct (cut (c :: sep) s) as [[b a]|]; reflexivity.
Qed.

Lemma replace_on_match c old new s :
  startswith (c :: old) s = true ->
  replace_on c old new s = new ++ replace_on c old new (skipn (S (length old)) s).
Proof. intros H. rewrite replace_on_eq, (cut_match _ _ H). reflexivity. Qed.

Lemma replace_on_nomatch c old new x s :
  startswith (c :: old) (x :: s) = false ->
  replace_on c old new (x :: s) = x :: replace_on c old new s.
Proof.
  intros H. rewrite replace_on_eq, (cut_nomatch _ _ _ H), (replace_on_eq c old new s).
  destruct (cut (c :: old) s) as [[b a]|]; reflexivity.
Qed.

Lemma replace_on_nil c old new : replace_on c old new [] = [].
Proof. rewrite replace_on_eq. reflexivity. Qed.

(** Induction on the length of a string, for the scans that consume more
    than one character per step. *)
Lemma str_length_ind (P : str -> Prop) :
  (forall s, (forall t, (length t < length s)%nat -> P t) -> P s) ->
  forall s, P s.
Proof.
  intros step s. remember (length s) as n eqn:Hn. revert s Hn.
  induction n as [n IH] using lt_wf_ind. intros s ->.
  apply step. intros t Ht. by eapply IH.
Qed.

Lemma split_on_not_nil c sep s : split_on c sep s <> [].
Proof.
  rewrite split_on_eq. destruct (cut (c :: sep) s) as [[b a]|]; discriminate.
Qed.

Lemma join_cons sep p rest :
  rest <> [] -> join sep (p :: rest) = p ++ sep ++ join sep rest.
Proof. destruct rest; [done|reflexivity]. Qed.

(** Splitting loses nothing: joining the segments with the separator gives
    the text back. *)
Lemma join_split_on c sep s : join (c :: sep) (split_on c sep s) = s.
Proof.
  induction s as [s IH] using str_length_ind.
  rewrite split_on_eq. destruct (cut (c :: sep) s) as [[b a]|] eqn:Hc; [|done].
  pose proof (cut_spec _ _ _ _ Hc) as ->.
  rewrite join_cons by apply split_on_not_nil.
  rewrite IH; [done|]. rewrite !length_app; simpl; lia.
Qed.

(** *** Segments do not contain the separator *)

Lemma startswith_app_l p s t :
  startswith p s = true -> startswith p (s ++ t) = true.
Proof.
  revert s; induction p as [|a p IH]; intros [|b s]; simpl; try done.
  intros [-> Hp]%andb_prop. simpl. by apply IH.
Qed.

Lemma cut_None_contains sep s : cut sep s = None -> contains sep s = false.
Proof.
  induction s as [|x s IH]; simpl.
  - destruct (startswith sep []); [done|]. by destruct sep.
  - destruct (startswith sep (x :: s)); [done|].
    destruct (cut sep s) as [[b a]|]; [done|]. intros _. by apply IH.
Qed.

Lemma cut_Some_contains c sep s b a :
  cut (c :: sep) s = Some (b, a) -> contains (c :: sep) b = false.
Proof.
  revert b; induction s as [|x s IH]; intros b.
  - simpl. done.
  - destruct (startswith (c :: sep) (x :: s)) eqn:Hp.
    + rewrite (cut_match _ _ Hp). by intros [= <- <-].
    + rewrite (cut_nomatch _ _ _ Hp).
      destruct (cut (c :: sep) s) as [[b' a']|] eqn:Hc; [|done].
      intros [= <- <-]. cbn [contains]. rewrite (IH b' eq_refl), orb_false_r.
      destruct (startswith (c :: sep) (x :: b')) eqn:Hb; [|done].
      apply (startswith_app_l _ _ ((c :: sep) ++ a')) in Hb.
      apply cut_spec in Hc. rewrite Hc in Hp.
      change ((x :: b') ++ (c :: sep) ++ a') with (x :: b' ++ (c :: sep) ++ a') in Hb.
      congruence.
Qed.

Lemma split_on_no_sep c sep s :
  Forall (fun seg => contains (c :: sep) seg = false) (split_on c sep s).
Proof.
  induction s as [s IH] using str_length_ind.
  rewrite split_on_eq. destruct (cut (c :: sep) s) as [[b a]|] eqn:Hc.
  - constructor; [by eapply cut_Some_contains|].
    apply IH. by eapply cut_shorter.
  - constructor; [by apply cut_None_contains|constructor].
Qed.

(** *** One-character separators: the split is the only decomposition *)

Lemma cut_char_app c p a :
  contains [c] p = false -> cut [c] (p ++ c :: a) = Some (p, a).
Proof.
  induction p as [|x p IH]; intros Hp.
  - rewrite cut_match; [done|]. cbn [app startswith]. by rewrite N.eqb_refl.
  - cbn [contains] in Hp. apply orb_false_elim in Hp as [Hx Hp].
    assert (startswith [c] (x :: p ++ c :: a) = false) as Hs
      by (cbn [startswith] in *; by destruct (c =? x)%N).
    change ((x :: p) ++ c :: a) with (x :: p ++ c :: a).
    rewrite (cut_nomatch _ _ _ Hs), (IH Hp). reflexivity.
Qed.

Lemma cut_char_None c p : contains [c] p = false -> cut [c] p = None.
Proof.
  induction p as [|x p IH]; intros Hp; [done|].
  cbn [contains] in Hp. apply orb_false_elim in Hp as [Hx Hp].
  rewrite (cut_nomatch _ _ _ Hx), (IH Hp). reflexivity.
Qed.

(** Any non-empty list of segments free of [c] whose join is the text is
    the result of splitting the text on [c]. *)
Lemma split_on_char_unique c segs :
  segs <> [] ->
  Forall (fun seg => contains [c] seg = false) segs ->
  split_on c [] (join [c] segs) = segs.
Proof.
  induction segs as [|p rest IH]; [done|]. intros _ Hall.
  apply Forall_cons in Hall as [Hp Hrest].
  destruct rest as [|q rest].
  - cbn [join]. rewrite split_on_eq, (cut_char_None _ _ Hp). reflexivity.
  - rewrite join_cons by done. cbn [app].
    rewrite split_on_eq, (cut_char_app _ _ _ Hp). f_equal. by apply IH.
Qed.

(** *** Stripping *)

Lemma rstrip_snoc_space s x : isspace x = true -> rstrip (s ++ [x]) = rstrip s.
Proof.
  intros Hx. unfold rstrip. rewrite rev_app_distr. simpl. by rewrite Hx.
Qed.

Lemma strip_snoc_space s x : isspace x = true -> strip (s ++ [x]) = strip s.
Proof. intros Hx. unfold strip. by rewrite rstrip_snoc_space. Qed.

(** *** Windows line endings *)

(** Two segments that differ at most by one trailing carriage return. *)
Definition upto_cr (a b : str) : Prop := b = a \/ b = a ++ [CR].

Lemma upto_cr_strip a b : upto_cr a b -> strip a = strip b.
Proof. intros [->| ->]; [done|]. by rewrite strip_snoc_space. Qed.

Lemma upto_cr_cons_head x l1 l2 :
  Forall2 upto_cr l1 l2 -> Forall2 upto_cr (cons_head x l1) (cons_head x l2).
Proof.
  intros [|a b l1' l2' Hab Hl]; simpl.
  - constructor; [by left|constructor].
  - constructor; [|done]. destruct Hab as [->| ->]; [by left|by right].
Qed.

(** The lines of the text with ['\r\n'] replaced and the lines of the text
    itself differ at most by one trailing ['\r'] each. *)
Lemma split_replace_crlf s :
  Forall2 upto_cr (split_on LF [] (replace_crlf s)) (split_on LF [] s).
Proof.
  unfold replace_crlf. induction s as [s IH] using str_length_ind.
  destruct s as [|x s].
  - rewrite replace_on_nil, split_on_nil. constructor; [by left|constructor].
  - destruct (startswith [CR; LF] (x :: s)) eqn:Hp.
    + rewrite (replace_on_match _ _ _ _ Hp).
      cbn [startswith] in Hp. apply andb_prop in Hp as [Hx Hs].
      apply N.eqb_eq in Hx as <-.
      destruct s as [|y s]; [done|]. cbn [startswith] in Hs.
      apply andb_prop in Hs as [Hy _]. apply N.eqb_eq in Hy as <-.
      cbn [length skipn app].
      rewrite (split_on_match LF [] (LF :: _)) by reflexivity.
      rewrite (split_on_nomatch LF [] CR) by reflexivity.
      rewrite (split_on_match LF [] (LF :: s)) by reflexivity.
      cbn [length skipn cons_head].
      rewrite !skipn_O.
      constructor; [by right|]. apply IH. simpl; lia.
    + rewrite (replace_on_nomatch _ _ _ _ _ Hp).
      destruct (startswith [LF] (x :: s)) eqn:Hl.
      * assert (startswith [LF] (x :: replace_on CR [LF] [LF] s) = true) as Hl'
          by (cbn [startswith] in *; by destruct (LF =? x)%N).
        rewrite (split_on_match _ _ _ Hl), (split_on_match _ _ _ Hl').
        cbn [length skipn]. rewrite !skipn_O.
        constructor; [by left|]. apply IH. simpl; lia.
      * assert (startswith [LF] (x :: replace_on CR [LF] [LF] s) = false) as Hl'
          by (cbn [startswith] in *; by destruct (LF =? x)%N).
        rewrite (split_on_nomatch _ _ _ _ Hl), (split_on_nomatch _ _ _ _ Hl').
        apply upto_cr_cons_head, IH. simpl; lia.
Qed.

Lemma map_strip_upto_cr l1 l2 :
  Forall2 upto_cr l1 l2 -> map strip l1 = map strip l2.
Proof.
  induction 1 as [|a b l1 l2 Hab _ IH]; [done|].
  simpl. by rewrite (upto_cr_strip _ _ Hab), IH.
Qed.

End PyStrFacts.

(** ** The queue manager *)

Module QueueManagerFacts.
Import QueueManager.

(** The comprehension of [load_text] keeps the stripped lines that are not
    empty: filtering before or after stripping is the same. *)
Lemma stripped_lines_filter_map lines :
  stripped_lines lines = List.filter PyStr.truthy (List.map PyStr.strip lines).
Proof.
  unfold stripped_lines. induction lines as [|l lines IH]; [done|].
  simpl. destruct (PyStr.truthy (PyStr.strip l)); simpl; by rewrite IH.
Qed.

Lemma stripped_lines_upto_cr l1 l2 :
  Forall2 PyStrFacts.upto_cr l1 l2 -> stripped_lines l1 = stripped_lines l2.
Proof.
  intros H. rewrite !stripped_lines_filter_map.
  by rewrite (PyStrFacts.map_strip_upto_cr _ _ H).
Qed.

(** The segments the specification speaks of: the text split on the
    non-empty delimiter [c :: D], each segment stripped, the empty ones
    dropped, in order of occurrence. *)
Definition trimmed_segments (c : char) (D : str) (text : str) : list str :=
  List.filter PyStr.truthy (List.map PyStr.strip (PyStr.split_on c D text)).

(** Whatever branch [load_text] takes, the stripped non-empty lines are the
    trimmed segments of the text itself. *)
Lemma split_lines_segments text c D :
  exists lines, split_lines text (c :: D) = Ok lines
                /\ stripped_lines lines = trimmed_segments c D text.
Proof.
  unfold split_lines, trimmed_segments.
  destruct (PyStr.eqb (c :: D) DELIMITER_NEWLINE) eqn:E.
  - apply PyStrFacts.eqb_true in E. injection E as -> ->.
    eexists; split; [reflexivity|].
    rewrite <- stripped_lines_filter_map.
    apply stripped_lines_upto_cr, PyStrFacts.split_replace_crlf.
  - eexists; split; [reflexivity|]. apply stripped_lines_filter_map.
Qed.

(** C3 (as amended): for every text and every non-empty delimiter,
    [load_text] stores as live queue (and as snapshot) exactly the stripped,
    non-empty segments of the text split on the delimiter, in their order of
    occurrence, and returns their number. *)
Theorem load_text_trimmed_segments text c D self :
  load_text text (Some (c :: D)) self =
  (Ok (length (trimmed_segments c D text)),
   {| _queue := trimmed_segments c D text;
      _original_queue := trimmed_segments c D text;
      _delimiter := c :: D;
      _loop_mode := _loop_mode self;
      _current_index := 0 |},
   [queue_changed]).
Proof.
  unfold load_text.
  destruct (split_lines_segments text c D) as (lines & -> & ->). reflexivity.
Qed.

(** C3, as stated, fails for the empty delimiter: [str.split] raises
    [ValueError], no queue is produced and no count is returned. *)
Lemma load_text_empty_delimiter_raises :
  load_text (lit "a b") (Some []) __init__ =
  (Raise ValueError,
   {| _queue := []; _original_queue := []; _delimiter := [];
      _loop_mode := false; _current_index := 0 |},
   []).
Proof. reflexivity. Qed.

(** C10: with the newline delimiter in force (given as argument or stored),
    loading a text and loading the text with every ['\r\n'] replaced by
    ['\n'] give the same queue, the same count, the same instance. *)
Theorem load_text_crlf_insensitive text delimiter self :
  match delimiter with Some d => d | None => _delimiter self end
    = DELIMITER_NEWLINE ->
  load_text (PyStr.replace_crlf text) delimiter self
  = load_text text delimiter self.
Proof.
  intros Hd. unfold load_text. rewrite Hd.
  unfold split_lines. rewrite (proj2 (PyStrFacts.eqb_true _ _) eq_refl).
  cbn [PyStr.split DELIMITER_NEWLINE].
  assert (stripped_lines (PyStr.split_on PyStr.LF []
                            (PyStr.replace_crlf (PyStr.replace_crlf text)))
          = stripped_lines (PyStr.split_on PyStr.LF [] (PyStr.replace_crlf text)))
    as ->; [|reflexivity].
  rewrite (stripped_lines_upto_cr _ _
             (PyStrFacts.split_replace_crlf (PyStr.replace_crlf text))).
  reflexivity.
Qed.

Lemma load_text_crlf_insensitive_witness :
  load_text (PyStr.replace_crlf (lit "a" ++ [PyStr.CR; PyStr.CR; PyStr.LF] ++ lit "b"))
            None __init__
  = load_text (lit "a" ++ [PyStr.CR; PyStr.CR; PyStr.LF] ++ lit "b") None __init__.
Proof. apply load_text_crlf_insensitive. reflexivity. Defined.

(** *** Popping *)

(** C9: when the live queue and the snapshot are both empty, [pop_next]
    returns [None] whatever the loop flag, and the instance (live queue,
    snapshot, delimiter, loop flag) is unchanged; [queue_empty] is the only
    signal. *)
Theorem pop_next_nothing_loaded self :
  _queue self = [] -> _original_queue self = [] ->
  pop_next self = (None, self, [queue_empty]).
Proof.
  intros Hq Ho. unfold pop_next. rewrite Hq, Ho.
  by rewrite andb_false_r.
Qed.

Lemma pop_next_nothing_loaded_witness :
  pop_next (mk [] [] (lit ";") true 0)
  = (None, mk [] [] (lit ";") true 0, [queue_empty]).
Proof. apply pop_next_nothing_loaded; reflexivity. Defined.

(** C1, as stated, fails on the looping instance with an empty snapshot:
    the live queue is empty, loop mode is on, and [pop_next] returns [None]
    and leaves zero lines, where the claim promises the first line of the
    snapshot and a count of snapshot length minus one. *)
Lemma pop_next_loop_empty_snapshot :
  _queue (set_loop_mode true __init__) = []
  /\ _loop_mode (set_loop_mode true __init__) = true
  /\ head (_original_queue (set_loop_mode true __init__)) = None
  /\ (pop_next (set_loop_mode true __init__)).1.1 = None
  /\ Z.of_nat (get_count (pop_next (set_loop_mode true __init__)).1.2)
     <> Z.of_nat (get_total (pop_next (set_loop_mode true __init__)).1.2) - 1.
Proof. repeat split; done. Qed.

(** C1 (as amended): with an empty live queue, [pop_next] returns [None]
    when loop mode is off; when loop mode is on and the snapshot is not
    empty, it reloads the live queue from the snapshot and returns the
    snapshot's first line, so that snapshot length minus one lines remain. *)
Theorem pop_next_empty_queue self :
  _queue self = [] ->
  (_loop_mode self = false ->
   pop_next self = (None, self, [queue_empty]))
  /\ (forall first rest,
        _loop_mode self = true -> _original_queue self = first :: rest ->
        pop_next self =
        (Some first,
         {| _queue := rest; _original_queue := first :: rest;
            _delimiter := _delimiter self; _loop_mode := true;
            _current_index := _current_index self |},
         [queue_changed; line_pasted first; queue_changed])
        /\ get_count (pop_next self).1.2 = (get_total self - 1)%nat).
Proof.
  intros Hq. split.
  - intros Hl. unfold pop_next. by rewrite Hq, Hl.
  - intros first rest Hl Ho.
    assert (pop_next self =
            (Some first,
             {| _queue := rest; _original_queue := first :: rest;
                _delimiter := _delimiter self; _loop_mode := true;
                _current_index := _current_index self |},
             [queue_changed; line_pasted first; queue_changed])) as E.
    { unfold pop_next, pop_front. rewrite Hq, Hl, Ho. cbn.
      by rewrite orb_true_r. }
    split; [exact E|]. rewrite E. unfold get_count, get_total. rewrite Ho.
    simpl. lia.
Qed.

Lemma pop_next_empty_queue_witness :
  pop_next (mk [] [lit "x"; lit "y"] DELIMITER_NEWLINE true 0)
  = (Some (lit "x"),
     mk [lit "y"] [lit "x"; lit "y"] DELIMITER_NEWLINE true 0,
     [queue_changed; line_pasted (lit "x"); queue_changed])
  /\ pop_next (mk [] [lit "x"; lit "y"] DELIMITER_NEWLINE false 0)
     = (None, mk [] [lit "x"; lit "y"] DELIMITER_NEWLINE false 0, [queue_empty]).
Proof.
  split.
  - apply (proj2 (pop_next_empty_queue
                    (mk [] [lit "x"; lit "y"] DELIMITER_NEWLINE true 0) eq_refl)
                 (lit "x") [lit "y"] eq_refl eq_refl).
  - apply (proj1 (pop_next_empty_queue
                    (mk [] [lit "x"; lit "y"] DELIMITER_NEWLINE false 0) eq_refl)
                 eq_refl).
Defined.

(** With a non-empty live queue, [pop_next] removes and returns its head. *)
Lemma pop_next_cons self line rest :
  _queue self = line :: rest ->
  (pop_next self).1.1 = Some line
  /\ _queue (pop_next self).1.2 = rest
  /\ _original_queue (pop_next self).1.2 = _original_queue self.
Proof. intros Hq. unfold pop_next, pop_front. rewrite Hq. done. Qed.

(** *** Position *)

(** C5: [get_current_position] is [total - remaining + 1] when the snapshot
    is not empty, and [0] when it is. *)
Theorem get_current_position_spec self :
  (0 < Z.of_nat (length (_original_queue self)) ->
   get_current_position self
   = Z.of_nat (length (_original_queue self))
     - Z.of_nat (length (_queue self)) + 1)
  /\ (Z.of_nat (length (_original_queue self)) = 0 ->
      get_current_position self = 0).
Proof.
  unfold get_current_position, get_total, get_count.
  split; intros H.
  - destruct (Z.gtb_spec (Z.of_nat (length (_original_queue self))) 0); lia.
  - rewrite H. reflexivity.
Qed.

Lemma get_current_position_spec_witness :
  get_current_position (mk [lit "c"] [lit "a"; lit "b"; lit "c"] (lit ",") false 0) = 3
  /\ get_current_position __init__ = 0.
Proof.
  split.
  - apply (proj1 (get_current_position_spec
                    (mk [lit "c"] [lit "a"; lit "b"; lit "c"] (lit ",") false 0))).
    simpl. lia.
  - apply (proj2 (get_current_position_spec __init__)). reflexivity.
Defined.

(** *** The invariant *)

(** The live queue is never longer than the snapshot. *)
Definition invariant (self : t) : Prop :=
  (length (_queue self) <= length (_original_queue self))%nat.

Lemma invariant_init : invariant __init__.
Proof. unfold invariant. simpl. lia. Qed.

Lemma invariant_load_text text delimiter self :
  invariant self -> invariant (load_text text delimiter self).1.2.
Proof.
  unfold invariant, load_text. intros H.
  destruct (split_lines text _) as [lines|e]; simpl; [lia|exact H].
Qed.

Lemma invariant_pop_next self : invariant self -> invariant (pop_next self).1.2.
Proof.
  unfold invariant, pop_next, pop_front. intros H.
  destruct (_queue self) as [|line rest] eqn:Hq.
  - destruct (_loop_mode self); simpl.
    + destruct (_original_queue self) as [|first more] eqn:Ho; simpl;
        rewrite ?Hq, ?Ho; simpl; lia.
    + rewrite Hq. simpl. lia.
  - simpl in *. lia.
Qed.

Lemma invariant_step o self : invariant self -> invariant (step o self).
Proof.
  destruct o; simpl; intros H.
  - by apply invariant_load_text.
  - exact H.
  - by apply invariant_pop_next.
  - unfold invariant. simpl. lia.
  - exact H.
  - exact H.
Qed.

Lemma invariant_states_after ops self :
  invariant self -> Forall invariant (states_after ops self).
Proof.
  revert self. induction ops as [|o ops IH]; intros self H; simpl.
  - constructor.
  - constructor; [by apply invariant_step|]. by apply IH, invariant_step.
Qed.

(** The same for the instance at the end of a run. *)
Lemma invariant_run ops self : invariant self -> invariant (run ops self).
Proof.
  revert self. induction ops as [|o ops IH]; intros self H; [exact H|].
  cbn [run fold_left]. by apply IH, invariant_step.
Qed.

(** C4: from a fresh instance, after every operation of every sequence of
    [load_text], [peek_next], [pop_next], [clear] and the two setters, the
    live queue is at most as long as the snapshot. *)
Theorem queue_never_longer_than_snapshot ops :
  Forall (fun self => (length (_queue self) <= length (_original_queue self))%nat)
         (states_after ops __init__).
Proof. apply invariant_states_after, invariant_init. Qed.

(** On every reachable instance with lines loaded, the displayed position
    lies between [1] and [total + 1]. *)
Lemma position_in_range self :
  invariant self -> _original_queue self <> [] ->
  1 <= get_current_position self <= Z.of_nat (get_total self) + 1.
Proof.
  unfold invariant, get_current_position, get_total, get_count. intros H Hne.
  assert (0 < Z.of_nat (length (_original_queue self))) as Hlen
    by (destruct (_original_queue self); [done|simpl; lia]).
  destruct (Z.gtb_spec (Z.of_nat (length (_original_queue self))) 0); lia.
Qed.

End QueueManagerFacts.

(** ** Settings *)

Module SettingsFacts.
Import Settings.

(** A file that exists in a directory that can be searched, can be read and
    holds a JSON object is merged over the defaults. *)
Lemma load_object d J :
  mkdir_ok d = true -> can_stat d = true ->
  file d = Some (Json (PyDict J)) -> can_read d = true ->
  load d = Ok (J ∪ DEFAULT_SETTINGS).
Proof.
  intros Hm Hs Hf Hr.
  unfold load, get_config_file, config_file_exists, read_settings.
  by rewrite Hm, Hs, Hf, Hr.
Qed.

(** Every failure inside the [try] gives the defaults. *)
Lemma load_failure d st :
  mkdir_ok d = true -> can_stat d = true -> file d = Some st ->
  can_read d = false \/ st = Garbage ->
  load d = Ok DEFAULT_SETTINGS.
Proof.
  intros Hm Hs Hf H.
  unfold load, get_config_file, config_file_exists, read_settings.
  rewrite Hm, Hs, Hf. destruct H as [-> | ->]; [done|].
  by destruct (can_read d).
Qed.

(** So does a missing file, and a file that holds JSON other than an
    object. *)
Lemma load_missing d :
  mkdir_ok d = true -> can_stat d = true -> file d = None ->
  load d = Ok DEFAULT_SETTINGS.
Proof.
  intros Hm Hs Hf. unfold load, get_config_file, config_file_exists.
  by rewrite Hm, Hs, Hf.
Qed.

Lemma load_not_an_object d v :
  mkdir_ok d = true -> can_stat d = true -> file d = Some (Json v) ->
  (forall J, v <> PyDict J) -> load d = Ok DEFAULT_SETTINGS.
Proof.
  intros Hm Hs Hf Hv.
  unfold load, get_config_file, config_file_exists, read_settings.
  rewrite Hm, Hs, Hf. destruct (can_read d); [|done].
  destruct v as [| | | | | |J]; try done. by destruct (Hv J).
Qed.

(** [load] raises exactly when the configuration directory cannot be made
    or cannot be searched. *)
Lemma load_raises_iff d :
  (exists e, load d = Raise e) <-> mkdir_ok d = false \/ can_stat d = false.
Proof.
  unfold load, get_config_file, config_file_exists.
  destruct (mkdir_ok d), (can_stat d); split; try (by eauto); try (by intros [|]).
  intros [e He]. destruct (file d) as [st|]; [|done].
  by destruct (read_settings d st).
Qed.

(** C7 fails on the code: with [settings.json] in a configuration directory
    that exists but cannot be searched, reading the file fails and the
    error leaves [load], which does not fall back to the defaults:
    [config_file.exists()] is called before the [try]. *)
Lemma load_unsearchable_directory_raises :
  load {| mkdir_ok := true; can_stat := false;
          file := Some (Json (PyDict DEFAULT_SETTINGS));
          can_read := false; can_write := false; write_completes := false |}
  = Raise OSError.
Proof. reflexivity. Qed.

(** A stored object that overrides two keys and adds one the defaults do not
    have. *)
Definition sample_object : gmap str pyval :=
  list_to_map [
    (lit "delimiter", PyString (lit "comma"));
    (lit "min_lines", PyInt 5);
    (lit "custom_delimiter", PyString (lit "|"))
  ].

(** A disk on which everything works. *)
Definition working_disk (f : option stored) : disk :=
  {| mkdir_ok := true; can_stat := true; file := f;
     can_read := true; can_write := true; write_completes := true |}.

(** X28: With the configuration directory in place and searchable, loading
    a stored JSON object [J] gives the defaults overridden by [J] (a key of
    [J] has [J]'s value, any other key its default, if it has one); when
    opening, reading or parsing the file fails, the settings are the
    defaults; in either case [load] returns and raises nothing. *)
Theorem load_defaults_overridden d :
  mkdir_ok d = true -> can_stat d = true ->
  (forall J, file d = Some (Json (PyDict J)) -> can_read d = true ->
     exists s, load d = Ok s
       /\ forall k : str,
            (forall v, J !! k = Some v -> s !! k = Some v)
            /\ (J !! k = None -> s !! k = DEFAULT_SETTINGS !! k))
  /\ (forall st, file d = Some st -> can_read d = false \/ st = Garbage ->
        load d = Ok DEFAULT_SETTINGS).
Proof.
  intros Hm Hs. split.
  - intros J Hf Hr. exists (J ∪ DEFAULT_SETTINGS).
    split; [by apply load_object|]. intros k. split.
    + intros v Hk. by apply lookup_union_Some_l.
    + intros Hk. by apply lookup_union_r.
  - intros st Hf H. by eapply load_failure.
Qed.

Lemma load_defaults_overridden_witness :
  (exists s, load (working_disk (Some (Json (PyDict sample_object)))) = Ok s
     /\ forall k : str,
          (forall v, sample_object !! k = Some v -> s !! k = Some v)
          /\ (sample_object !! k = None -> s !! k = DEFAULT_SETTINGS !! k))
  /\ load (working_disk (Some Garbage)) = Ok DEFAULT_SETTINGS.
Proof.
  split.
  - apply (proj1 (load_defaults_overridden
                    (working_disk (Some (Json (PyDict sample_object))))
                    eq_refl eq_refl) sample_object eq_refl eq_refl).
  - apply (proj2 (load_defaults_overridden
                    (working_disk (Some Garbage)) eq_refl eq_refl)
                 Garbage eq_refl). by right.
Defined.

Example load_sample_delimiter :
  match load (working_disk (Some (Json (PyDict sample_object)))) with
  | Ok s => delimiter s = PyString (lit "comma")
            /\ s !! lit "paste_delay" = Some (PyInt 350)
  | Raise _ => False
  end.
Proof. vm_compute. split; reflexivity. Qed.

End SettingsFacts.

(** ** The application: delimiter from settings, paste and restore *)

Module QueueClipAppFacts.
Import QueueClipApp.

(** *** The delimiter *)

(** For the four named delimiters, applying the settings stores the
    corresponding separator in the queue manager. *)
Lemma _set_delimiter_from_settings_named self name sep :
  In (name, sep)
     [(lit "newline", QueueManager.DELIMITER_NEWLINE);
      (lit "comma", QueueManager.DELIMITER_COMMA);
      (lit "tab", QueueManager.DELIMITER_TAB);
      (lit "semicolon", QueueManager.DELIMITER_SEMICOLON)] ->
  Settings.delimiter (settings self) = Settings.PyString name ->
  exists self', _set_delimiter_from_settings self = Ok self'
                /\ QueueManager.delimiter (queue_manager self') = sep.
Proof.
  intros Hin Hd. unfold _set_delimiter_from_settings. rewrite Hd.
  simpl in Hin.
  destruct Hin as [[= <- <-]|[[= <- <-]|[[= <- <-]|[[= <- <-]|[]]]]];
    eexists; (split; [reflexivity|]); vm_compute; reflexivity.
Qed.

(** The settings the dialog saves when the user picks "Custom" and types
    [|] as the custom delimiter. *)
Definition custom_settings : gmap str Settings.pyval :=
  <[lit "custom_delimiter" := Settings.PyString (lit "|")]>
    (<[lit "delimiter" := Settings.PyString (lit "custom")]>
       Settings.DEFAULT_SETTINGS).

Definition custom_app : t :=
  {| settings := custom_settings;
     queue_manager := QueueManager.__init__;
     clipboard_monitor := ClipboardMonitor.__init__ 2 |}.

(** The dialog does store the custom delimiter (here in memory, the file
    being read-only). *)
Lemma _save_settings_stores_custom :
  let ui := Settings.mk_dialog 4 (lit "|") false 2 350 true 0 in
  let d := Settings.mk_disk true true None true false true in
  match Settings._save_settings ui Settings.DEFAULT_SETTINGS d with
  | (Ok _, s, _) =>
      Settings.delimiter s = Settings.PyString (lit "custom")
      /\ s !! lit "custom_delimiter" = Some (Settings.PyString (lit "|"))
      /\ s = custom_settings
  | _ => False
  end.
Proof. vm_compute. repeat split; reflexivity. Qed.

(** C6 fails on the code for the 'custom' setting: the stored custom
    delimiter [|] is never read; the queue manager gets the newline
    delimiter, and a text is then split on newlines, not on [|]. *)
Lemma custom_delimiter_not_applied :
  match _set_delimiter_from_settings custom_app with
  | Ok self' =>
      QueueManager.delimiter (queue_manager self') = QueueManager.DELIMITER_NEWLINE
      /\ (QueueManager.load_text (lit "a|b|c") None (queue_manager self')).1
         = (Ok 1%nat,
            QueueManager.mk [lit "a|b|c"] [lit "a|b|c"]
              QueueManager.DELIMITER_NEWLINE false 0)
  | Raise _ => False
  end.
Proof. vm_compute. split; reflexivity. Qed.

(** *** Restoring the clipboard *)

Lemma get_clipboard_available w :
  ClipboardMonitor.available w = true ->
  ClipboardMonitor.get_clipboard w = ClipboardMonitor.content w.
Proof.
  intros H. unfold ClipboardMonitor.get_clipboard, ClipboardMonitor.pyperclip_paste.
  rewrite H. by destruct (ClipboardMonitor.content w).
Qed.

Lemma cons_neq_self {A} (x : A) (l : list A) : l <> x :: l.
Proof. intros H. apply (f_equal length) in H. simpl in H. lia. Qed.

Lemma resume_not_paused m : ClipboardMonitor._paused (ClipboardMonitor.resume m) = false.
Proof.
  unfold ClipboardMonitor.resume.
  destruct (ClipboardMonitor._paused m) eqn:E; simpl; done.
Qed.

Lemma resume_last_content m :
  ClipboardMonitor._last_content (ClipboardMonitor.resume m)
  = ClipboardMonitor._last_content m.
Proof. unfold ClipboardMonitor.resume. by destruct (ClipboardMonitor._paused m). Qed.

(** C2: when the restore callback runs on a working clipboard, the
    pre-paste value is written back exactly when the clipboard still holds
    the pasted line; otherwise the clipboard is untouched and the monitor's
    last content becomes the value found there.  The monitor is resumed in
    both cases. *)
Theorem restore_clipboard_guard current_line original_clipboard self w :
  ClipboardMonitor.available w = true ->
  let self' := (restore_clipboard current_line original_clipboard self w).1 in
  let w' := (restore_clipboard current_line original_clipboard self w).2 in
  (ClipboardMonitor.writes w' = original_clipboard :: ClipboardMonitor.writes w
   <-> ClipboardMonitor.content w = current_line)
  /\ (ClipboardMonitor.content w = current_line ->
      ClipboardMonitor.content w' = original_clipboard
      /\ ClipboardMonitor._last_content (clipboard_monitor self') = original_clipboard)
  /\ (ClipboardMonitor.content w <> current_line ->
      w' = w
      /\ ClipboardMonitor._last_content (clipboard_monitor self')
         = ClipboardMonitor.content w)
  /\ ClipboardMonitor._paused (clipboard_monitor self') = false.
Proof.
  intros Hav. unfold restore_clipboard.
  rewrite (get_clipboard_available _ Hav).
  unfold ClipboardMonitor.set_clipboard, ClipboardMonitor.pyperclip_copy.
  rewrite Hav.
  destruct (PyStr.eqb (ClipboardMonitor.content w) current_line) eqn:E; cbn.
  - apply PyStrFacts.eqb_true in E.
    rewrite resume_not_paused, resume_last_content. cbn. tauto.
  - apply PyStrFacts.eqb_false in E.
    rewrite resume_not_paused, resume_last_content. cbn.
    repeat split; try tauto.
    intros H. by apply cons_neq_self in H.
Qed.

Lemma restore_clipboard_guard_witness :
  let w := ClipboardMonitor.mk_clipboard (lit "line 1") true [lit "line 1"] in
  let self := mk Settings.DEFAULT_SETTINGS QueueManager.__init__
                 (ClipboardMonitor.mk 2 true []) in
  ClipboardMonitor.content (restore_clipboard (lit "line 1") (lit "before") self w).2
  = lit "before".
Proof.
  intros w self.
  apply (proj1 (proj2 (restore_clipboard_guard (lit "line 1") (lit "before") self w
                         eq_refl))).
  reflexivity.
Defined.

(** Whatever becomes of the timer, [_on_paste_triggered] on a queue with a
    non-empty head line removes that line. *)
Lemma _on_paste_triggered_pops self w line rest :
  QueueManager._queue (queue_manager self) = line :: rest ->
  line <> [] ->
  QueueManager._queue (queue_manager (_on_paste_triggered self w).1.1) = rest.
Proof.
  intros Hq Hne. unfold _on_paste_triggered.
  unfold QueueManager.is_empty, QueueManager.peek_next. rewrite Hq. cbn [length Nat.eqb].
  destruct line as [|c line]; [done|]. cbn [PyStr.truthy negb].
  destruct (ClipboardMonitor.set_clipboard _ w) as [ok w1].
  pose proof (QueueManagerFacts.pop_next_cons _ _ _ Hq) as (_ & Hrest & _).
  destruct (QueueManager.pop_next (queue_manager self)) as [[r qm] sigs].
  cbn in Hrest. cbn [settings with_queue_manager with_clipboard_monitor].
  destruct (Settings.get _ _ _) as [|b|z| | | |]; try done.
  by destruct (c_int z).
Qed.

(** The timer that [_on_paste_triggered] arms captures the head of the
    queue and the clipboard content found before the paste; the head is in
    the clipboard and the monitor is paused when the handler returns. *)
Lemma _on_paste_triggered_arms self w line rest z :
  QueueManager._queue (queue_manager self) = line :: rest ->
  line <> [] ->
  ClipboardMonitor.available w = true ->
  Settings.get (lit "paste_delay") (Settings.PyInt 350) (settings self)
  = Settings.PyInt z ->
  c_int z = true ->
  exists self' w',
    _on_paste_triggered self w
    = (self', w', Some (mk_timer z line (ClipboardMonitor.content w)))
    /\ ClipboardMonitor.content w' = line
    /\ ClipboardMonitor.available w' = true
    /\ ClipboardMonitor._paused (clipboard_monitor self') = true
    /\ QueueManager._queue (queue_manager self') = rest.
Proof.
  intros Hq Hne Hav Hz Hc. unfold _on_paste_triggered.
  unfold QueueManager.is_empty, QueueManager.peek_next. rewrite Hq. cbn [length Nat.eqb].
  destruct line as [|c line]; [done|]. cbn [PyStr.truthy negb].
  rewrite (get_clipboard_available _ Hav).
  unfold ClipboardMonitor.set_clipboard, ClipboardMonitor.pyperclip_copy. rewrite Hav.
  pose proof (QueueManagerFacts.pop_next_cons _ _ _ Hq) as (_ & Hrest & _).
  destruct (QueueManager.pop_next (queue_manager self)) as [[r qm] sigs].
  cbn in Hrest.
  cbn [settings with_queue_manager with_clipboard_monitor]. rewrite Hz, Hc.
  eexists _, _. split; [reflexivity|]. cbn.
  split; [done|]. split; [done|]. split; [|done].
  unfold ClipboardMonitor.pause.
  by destruct (ClipboardMonitor._paused (clipboard_monitor self)) eqn:E.
Qed.

End QueueClipAppFacts.

(** ** Hotkey matching *)

Module HotkeyHandlerFacts.
Import HotkeyHandler.

(** The modifier families as the specification lists them: the plain, left
    and right variant of each of ctrl, alt, shift and cmd. *)
Definition claimed_families : list (list Key) :=
  [[Key_ctrl; Key_ctrl_l; Key_ctrl_r];
   [Key_alt; Key_alt_l; Key_alt_r];
   [Key_shift; Key_shift_l; Key_shift_r];
   [Key_cmd; Key_cmd_l; Key_cmd_r]].

(** The families the code implements: a name that contains the modifier's
    word belongs to it, which puts [alt_gr] with the alt keys. *)
Definition loose_families : list (list Key) :=
  [[Key_ctrl; Key_ctrl_l; Key_ctrl_r];
   [Key_alt; Key_alt_l; Key_alt_r; Key_alt_gr];
   [Key_shift; Key_shift_l; Key_shift_r];
   [Key_cmd; Key_cmd_l; Key_cmd_r]].

Definition same_family (families : list (list Key)) (a b : Key) : bool :=
  existsb (fun fam => bool_decide (a ∈ fam) && bool_decide (b ∈ fam)) families.

(** The four substring tests of [_keys_match]. *)
Definition names_share_modifier (a b : Key) : bool :=
  existsb (fun word => PyStr.contains word (name a) && PyStr.contains word (name b))
          [lit "cmd"; lit "ctrl"; lit "alt"; lit "shift"].

Lemma all_Keys_complete (k : Key) : In k all_Keys.
Proof. destruct k; vm_compute; tauto. Qed.

(** On the members of [Key], the substring tests decide membership in the
    same loose family. *)
Lemma names_share_modifier_families a b :
  names_share_modifier a b = same_family loose_families a b.
Proof.
  assert (forallb (fun a => forallb (fun b =>
            Bool.eqb (names_share_modifier a b) (same_family loose_families a b))
            all_Keys) all_Keys = true) as H by (vm_compute; reflexivity).
  rewrite forallb_forall in H. specialize (H a (all_Keys_complete a)).
  rewrite forallb_forall in H. specialize (H b (all_Keys_complete b)).
  by apply Bool.eqb_prop.
Qed.

Section WithLower.

Variable lower : str -> str.

(** Two character keys with the same character, ignoring case. *)
Definition same_char_ignoring_case (key1 key2 : key) : Prop :=
  match key1, key2 with
  | KeyCode _ (Some c1) _, KeyCode _ (Some c2) _ =>
      c1 <> [] /\ c2 <> [] /\ lower c1 = lower c2
  | _, _ => False
  end.

(** Two members of [Key] in one family of [families]. *)
Definition same_modifier (families : list (list Key)) (key1 key2 : key) : Prop :=
  match key1, key2 with
  | Special a, Special b => same_family families a b = true
  | _, _ => False
  end.

(** The matching relation in the specification's words, over a choice of
    modifier families. *)
Definition keys_match_spec (families : list (list Key)) (key1 key2 : key) : Prop :=
  key_eqb key1 key2 = true
  \/ same_modifier families key1 key2
  \/ same_char_ignoring_case key1 key2.

Lemma truthy_true (s : str) : PyStr.truthy s = true <-> s <> [].
Proof. destruct s; simpl; split; done. Qed.

Lemma _keys_match_loose key1 key2 :
  _keys_match lower key1 key2 = true <-> keys_match_spec loose_families key1 key2.
Proof.
  unfold _keys_match, keys_match_spec.
  destruct (key_eqb key1 key2) eqn:Heq; [by intuition|].
  destruct key1 as [a|vk1 [c1|] d1|], key2 as [b|vk2 [c2|] d2|];
    cbn [same_modifier same_char_ignoring_case];
    try (split; [done | by intros [|[|]]]).
  - cbn zeta.
    assert ((if PyStr.contains (lit "cmd") (name a) && PyStr.contains (lit "cmd") (name b)
             then true
             else if PyStr.contains (lit "ctrl") (name a) && PyStr.contains (lit "ctrl") (name b)
             then true
             else if PyStr.contains (lit "alt") (name a) && PyStr.contains (lit "alt") (name b)
             then true
             else if PyStr.contains (lit "shift") (name a) && PyStr.contains (lit "shift") (name b)
             then true else false) = names_share_modifier a b) as ->.
    { unfold names_share_modifier. cbn [existsb].
      repeat match goal with |- context [if ?c then _ else _] => destruct c end;
        reflexivity. }
    rewrite names_share_modifier_families. split; [by auto|by intros [|[|]]].
  - destruct (PyStr.truthy c1 && PyStr.truthy c2) eqn:Ht.
    + apply andb_prop in Ht as [H1%truthy_true H2%truthy_true].
      rewrite PyStrFacts.eqb_true. split; [by auto|].
      by intros [|[|(_ & _ & ?)]].
    + split; [done|]. intros [|[|(H1%truthy_true & H2%truthy_true & _)]]; try done.
      by rewrite H1, H2 in Ht.
Qed.

Lemma _check_hotkey_forall H C :
  _check_hotkey lower H C = true
  <-> forall hk, In hk H -> exists ck, In ck C /\ _keys_match lower hk ck = true.
Proof.
  unfold _check_hotkey. rewrite forallb_forall.
  split; intros Hall hk Hin.
  - by apply existsb_exists, Hall.
  - by apply existsb_exists, Hall.
Qed.

(** C8 (as amended): the hotkey matches exactly when each of its keys
    matches some pressed key, two keys matching when they are equal, when
    both are members of the same modifier family (ctrl, alt, shift, cmd in
    their plain, left and right variants, and [alt_gr] with the alt keys),
    or when both are character keys with the same character ignoring
    case. *)
Theorem _check_hotkey_spec H C :
  _check_hotkey lower H C = true
  <-> forall hk, In hk H ->
        exists ck, In ck C /\ keys_match_spec loose_families hk ck.
Proof.
  rewrite _check_hotkey_forall.
  split; intros Hall hk Hin; destruct (Hall hk Hin) as (ck & Hck & Hm);
    exists ck; (split; [done|]); by apply _keys_match_loose.
Qed.

End WithLower.

(** Lower-casing of the ASCII letters, an instance of [lower] on texts that
    have no other cased characters. *)
Definition ascii_lower (s : str) : str :=
  List.map (fun c => if (65 <=? c)%N && (c <=? 90)%N then (c + 32)%N else c) s.

(** C8, as stated, fails: with the hotkey [alt] and only [alt_gr] pressed
    the code reports a match, although [alt_gr] is neither equal to [alt],
    nor its plain, left or right variant, nor a character key. *)
Lemma alt_gr_matches_alt :
  _check_hotkey ascii_lower [Special Key_alt] [Special Key_alt_gr] = true
  /\ ~ (forall hk, In hk [Special Key_alt] ->
          exists ck, In ck [Special Key_alt_gr]
                     /\ keys_match_spec ascii_lower claimed_families hk ck).
Proof.
  split; [vm_compute; reflexivity|].
  intros Hall. destruct (Hall (Special Key_alt)) as (ck & Hck & Hm); [by left|].
  destruct Hck as [<-|[]].
  destruct Hm as [Hm|[Hm|Hm]]; vm_compute in Hm; done.
Qed.

(** Character keys match across case; a character key never matches a
    modifier. *)
Example shifted_letter_matches :
  _check_hotkey ascii_lower
    [Special Key_ctrl; KeyCode None (Some (lit "v")) false]
    [KeyCode (Some 86) (Some (lit "V")) false; Special Key_ctrl_l] = true.
Proof. vm_compute. reflexivity. Qed.

Example default_hotkey_needs_f9 :
  _check_hotkey ascii_lower [Special Key_f9] [Special Key_f8; Special Key_ctrl] = false.
Proof. vm_compute. reflexivity. Qed.

End HotkeyHandlerFacts.

(** ** More on the Python string operations *)

Module PyStrMore.
Import PyStr.

Lemma lstrip_head s c : head (lstrip s) = Some c -> isspace c = false.
Proof.
  induction s as [|x s IH]; simpl; [done|].
  destruct (isspace x) eqn:Hx; [done|]. simpl. by intros [= <-].
Qed.

Lemma lstrip_suffix s : lstrip s `suffix_of` s.
Proof.
  induction s as [|x s IH]; simpl; [done|].
  destruct (isspace x); [by apply suffix_cons_r|done].
Qed.

Lemma last_rev (s : str) : last (rev s) = head s.
Proof. rewrite rev_alt. apply (last_reverse s). Qed.

Lemma rstrip_last s c : last (rstrip s) = Some c -> isspace c = false.
Proof. unfold rstrip. rewrite last_rev. apply lstrip_head. Qed.

Lemma suffix_last (s t : str) c : s `suffix_of` t -> last s = Some c -> last t = Some c.
Proof. intros [k ->] H. rewrite last_app, H. done. Qed.

(** A stripped string neither starts nor ends with whitespace. *)
Lemma strip_head s c : head (strip s) = Some c -> isspace c = false.
Proof. apply lstrip_head. Qed.

Lemma strip_last s c : last (strip s) = Some c -> isspace c = false.
Proof.
  unfold strip. intros H. apply (rstrip_last s).
  by eapply suffix_last; [apply lstrip_suffix|].
Qed.

(** With a one-character separator there is one segment more than there are
    separators in the text. *)
Lemma split_on_char_length c s :
  length (split_on c [] s) = S (length (List.filter (fun x => (x =? c)%N) s)).
Proof.
  induction s as [|x s IH]; [by rewrite PyStrFacts.split_on_nil|].
  destruct (startswith [c] (x :: s)) eqn:Hs.
  - rewrite (PyStrFacts.split_on_match _ _ _ Hs). cbn [length skipn].
    rewrite skipn_O, IH. cbn [startswith] in Hs.
    apply andb_prop in Hs as [Hs _]. apply N.eqb_eq in Hs as <-.
    cbn [List.filter]. by rewrite N.eqb_refl.
  - rewrite (PyStrFacts.split_on_nomatch _ _ _ _ Hs).
    pose proof (PyStrFacts.split_on_not_nil c [] s) as Hne.
    destruct (split_on c [] s) as [|h t] eqn:E; [done|].
    cbn [startswith] in Hs. rewrite andb_true_r in Hs.
    cbn [List.filter]. rewrite N.eqb_sym, Hs. exact IH.
Qed.

(** Replacing ['\r\n'] by ['\n'] keeps the number of ['\n']. *)
Lemma replace_crlf_count_LF s :
  length (List.filter (fun x => (x =? LF)%N) (replace_crlf s))
  = length (List.filter (fun x => (x =? LF)%N) s).
Proof.
  unfold replace_crlf. induction s as [s IH] using PyStrFacts.str_length_ind.
  destruct s as [|x s]; [by rewrite PyStrFacts.replace_on_nil|].
  destruct (startswith [CR; LF] (x :: s)) eqn:Hp.
  - rewrite (PyStrFacts.replace_on_match _ _ _ _ Hp).
    cbn [startswith] in Hp. apply andb_prop in Hp as [Hx Hs].
    apply N.eqb_eq in Hx as <-.
    destruct s as [|y s]; [done|]. cbn [startswith] in Hs.
    apply andb_prop in Hs as [Hy _]. apply N.eqb_eq in Hy as <-.
    cbn [length skipn app]. rewrite skipn_O.
    cbn [List.filter]. change (CR =? LF)%N with false. change (LF =? LF)%N with true.
    cbn [length]. f_equal. apply IH. simpl; lia.
  - rewrite (PyStrFacts.replace_on_nomatch _ _ _ _ _ Hp).
    cbn [List.filter]. destruct (x =? LF)%N; cbn [length]; [f_equal|];
      apply IH; simpl; lia.
Qed.

End PyStrMore.

(** ** More on the queue manager *)

Module QueueManagerRuns.
Import QueueManager.

(** *** The live queue is a suffix of the snapshot *)

Lemma suffix_pop_next self :
  _queue self `suffix_of` _original_queue self ->
  _queue (pop_next self).1.2 `suffix_of` _original_queue (pop_next self).1.2.
Proof.
  unfold pop_next, pop_front. intros H.
  destruct (_queue self) as [|line rest] eqn:Hq.
  - destruct (_loop_mode self); simpl; [|by rewrite Hq].
    destruct (_original_queue self) as [|first more] eqn:Ho; simpl.
    + by rewrite Hq, Ho.
    + by apply suffix_cons_r.
  - simpl. by eapply suffix_cons_l.
Qed.

Lemma suffix_step o self :
  _queue self `suffix_of` _original_queue self ->
  _queue (step o self) `suffix_of` _original_queue (step o self).
Proof.
  destruct o; simpl; intros H; try done.
  - unfold load_text. by destruct (split_lines text _).
  - by apply suffix_pop_next.
Qed.

(** X1: After every operation of every sequence, starting from a fresh
    instance, the live queue is a suffix of the snapshot: the lines still to
    paste are the last lines of what was loaded, in the same order. *)
Theorem queue_suffix_of_snapshot ops :
  Forall (fun self => _queue self `suffix_of` _original_queue self)
         (states_after ops __init__).
Proof.
  assert (forall self, _queue self `suffix_of` _original_queue self ->
            Forall (fun self => _queue self `suffix_of` _original_queue self)
                   (states_after ops self)) as H.
  { induction ops as [|o ops IH]; intros self Hs; simpl; constructor.
    - by apply suffix_step.
    - by apply IH, suffix_step. }
  by apply H.
Qed.

(** *** Draining *)

Definition with_queue (q : list str) (self : t) : t :=
  {| _queue := q; _original_queue := _original_queue self;
     _delimiter := _delimiter self; _loop_mode := _loop_mode self;
     _current_index := _current_index self |}.

Lemma with_queue_same self : with_queue (_queue self) self = self.
Proof. by destruct self. Qed.

(** While lines remain, [pop_next] hands them out front to back, loop mode
    or not: no reload happens before the live queue is empty. *)
Lemma pop_many_prefix k self :
  (k <= length (_queue self))%nat ->
  pop_many k self
  = (List.map Some (firstn k (_queue self)), with_queue (skipn k (_queue self)) self).
Proof.
  revert self. induction k as [|k IH]; intros self Hk.
  - cbn [pop_many]. rewrite firstn_O, skipn_O. by rewrite with_queue_same.
  - destruct (_queue self) as [|line rest] eqn:Hq; [simpl in Hk; lia|].
    cbn [pop_many]. unfold pop_next, pop_front. rewrite Hq.
    rewrite IH by (simpl in *; lia). reflexivity.
Qed.

(** X2: Without loop mode, as many [pop_next] calls as there are lines return
    exactly the lines of the live queue, in order; the queue is then empty
    and one more call returns [None]. *)
Theorem pop_many_drains self :
  _loop_mode self = false ->
  pop_many (length (_queue self)) self
  = (List.map Some (_queue self), with_queue [] self)
  /\ (pop_next (with_queue [] self)).1.1 = None.
Proof.
  intros Hl. split.
  - rewrite pop_many_prefix by lia. by rewrite firstn_all, skipn_all.
  - unfold pop_next. simpl. by rewrite Hl.
Qed.

Lemma pop_many_drains_witness :
  pop_many 2 (mk [lit "b"; lit "c"] [lit "a"; lit "b"; lit "c"] (lit ",") false 0)
  = ([Some (lit "b"); Some (lit "c")],
     mk [] [lit "a"; lit "b"; lit "c"] (lit ",") false 0).
Proof.
  apply (proj1 (pop_many_drains
                  (mk [lit "b"; lit "c"] [lit "a"; lit "b"; lit "c"] (lit ",") false 0)
                  eq_refl)).
Defined.

(** *** Looping *)

Lemma skipn_lookup_cons {A} (l : list A) j x :
  l !! j = Some x -> skipn j l = x :: skipn (S j) l.
Proof.
  revert j; induction l as [|y l IH]; intros [|j]; simpl; try done.
  - by intros [= ->].
  - apply IH.
Qed.

(** In loop mode, from the live queue [skipn j o] of a non-empty snapshot
    [o], the [i]-th call of [pop_next] returns line [(j + i) mod length o]
    of the snapshot. *)
Lemma pop_many_cycle_from k : forall self j,
  _loop_mode self = true ->
  _original_queue self <> [] ->
  (j <= length (_original_queue self))%nat ->
  _queue self = skipn j (_original_queue self) ->
  (pop_many k self).1
  = List.map (fun i => _original_queue self !! ((j + i) mod length (_original_queue self))%nat)
             (seq 0 k)
  /\ _original_queue (pop_many k self).2 = _original_queue self.
Proof.
  induction k as [|k IH]; intros self j Hl Hne Hj Hq; [done|].
  set (o := _original_queue self) in *.
  assert (0 < length o)%nat as Hn by (destruct o; [done|simpl; lia]).
  cbn [pop_many seq List.map].
  destruct (decide (j = length o)) as [->|Hlt].
  - (* the live queue is empty: reload, then pop the first line *)
    rewrite skipn_all in Hq.
    destruct o as [|first more] eqn:Ho; [done|].
    unfold pop_next, pop_front. rewrite Hq, Hl. fold o. rewrite Ho.
    cbn [PyStr.list_truthy andb _queue _original_queue _delimiter _loop_mode
         _current_index].
    match goal with |- context [pop_many k ?s] =>
      destruct (IH s 1%nat) as [IH1 IH2]; [done|done|simpl; lia|done|] end.
    cbn [_original_queue] in IH1, IH2.
    destruct (pop_many k _) as [rs self''] eqn:Hpm. cbn [fst snd] in *.
    split; [|done]. f_equal.
    + rewrite Nat.add_0_r, Nat.Div0.mod_same. done.
    + rewrite IH1, <- seq_shift, List.map_map. apply map_ext. intros i.
      f_equal. replace (length (first :: more) + S i)%nat
        with (1 + i + 1 * length (first :: more))%nat by lia.
      by rewrite Nat.Div0.mod_add.
  - assert (j < length o)%nat as Hj' by lia.
    destruct (lookup_lt_is_Some_2 o j Hj') as [line Hline].
    rewrite (skipn_lookup_cons _ _ _ Hline) in Hq.
    unfold pop_next, pop_front. rewrite Hq.
    match goal with |- context [pop_many k ?s] =>
      destruct (IH s (S j)) as [IH1 IH2]; [done|done|simpl; fold o; lia|done|] end.
    cbn [_original_queue] in IH1, IH2. fold o in IH1, IH2.
    destruct (pop_many k _) as [rs self''] eqn:Hpm. cbn [fst snd] in *.
    split; [|done]. f_equal.
    + rewrite Nat.add_0_r, Nat.mod_small by done. done.
    + rewrite IH1, <- seq_shift, List.map_map. apply map_ext. intros i.
      f_equal. f_equal. lia.
Qed.

(** X3: With loop mode on, a freshly loaded non-empty queue cycles for ever:
    the [i]-th call of [pop_next] (counting from [0]) returns line
    [i mod n] of the [n] loaded lines, and never [None]. *)
Theorem pop_many_cycles self k :
  _loop_mode self = true ->
  _original_queue self <> [] ->
  _queue self = _original_queue self ->
  (pop_many k self).1
  = List.map (fun i => _original_queue self !! (i mod length (_original_queue self))%nat)
             (seq 0 k).
Proof.
  intros Hl Hne Hq.
  by destruct (pop_many_cycle_from k self 0%nat Hl Hne ltac:(lia) Hq) as [-> _].
Qed.

Lemma pop_many_cycles_witness :
  (pop_many 5 (mk [lit "a"; lit "b"] [lit "a"; lit "b"] (lit ",") true 0)).1
  = [Some (lit "a"); Some (lit "b"); Some (lit "a"); Some (lit "b"); Some (lit "a")].
Proof.
  apply (pop_many_cycles (mk [lit "a"; lit "b"] [lit "a"; lit "b"] (lit ",") true 0) 5
           eq_refl ltac:(discriminate) eq_refl).
Defined.

(** *** Position *)

(** X4: On every instance reached from a fresh one, a non-empty live queue
    means a displayed position between [1] and the total. *)
Theorem position_between_one_and_total ops :
  Forall (fun self =>
            _queue self <> [] ->
            1 <= get_current_position self <= Z.of_nat (get_total self))
         (states_after ops __init__).
Proof.
  pose proof (QueueManagerFacts.invariant_states_after ops __init__
                QueueManagerFacts.invariant_init) as H.
  eapply Forall_impl; [exact H|]. intros self Hinv Hne. cbv beta in *.
  unfold QueueManagerFacts.invariant in Hinv.
  unfold get_current_position, get_total, get_count.
  destruct (_queue self) as [|l q]; [done|]. simpl in Hinv.
  destruct (Z.gtb_spec (Z.of_nat (length (_original_queue self))) 0);
    simpl length; lia.
Qed.

(** X5: Popping from a non-empty live queue that is not longer than the
    snapshot moves the displayed position forward by one. *)
Theorem position_after_pop self :
  _queue self <> [] ->
  (length (_queue self) <= length (_original_queue self))%nat ->
  get_current_position (pop_next self).1.2 = get_current_position self + 1.
Proof.
  intros Hne Hle. unfold pop_next, pop_front.
  destruct (_queue self) as [|line rest] eqn:Hq; [done|].
  unfold get_current_position, get_total, get_count. cbn [fst snd _queue _original_queue].
  rewrite Hq. simpl in Hle.
  destruct (Z.gtb_spec (Z.of_nat (length (_original_queue self))) 0);
    simpl length; lia.
Qed.

Lemma position_after_pop_witness :
  get_current_position
    (pop_next (mk [lit "b"; lit "c"] [lit "a"; lit "b"; lit "c"] (lit ",") false 0)).1.2
  = get_current_position
      (mk [lit "b"; lit "c"] [lit "a"; lit "b"; lit "c"] (lit ",") false 0) + 1.
Proof.
  apply position_after_pop; [discriminate|simpl; lia].
Defined.

(** *** Clearing, peeking *)

(** X6: After [clear], [pop_next] returns [None] and changes nothing, whatever
    the loop flag: the snapshot went too, so loop mode cannot bring the
    lines back; the position shown is [0]. *)
Theorem pop_next_after_clear self :
  pop_next (clear self).1 = (None, (clear self).1, [queue_empty])
  /\ get_current_position (clear self).1 = 0
  /\ is_empty (clear self).1 = true.
Proof.
  unfold pop_next, clear. cbn. by rewrite andb_false_r.
Qed.

(** X7: When the live queue is not empty, [peek_next] announces exactly the
    line that [pop_next] then returns and removes. *)
Theorem peek_next_is_next_pop self :
  is_empty self = false ->
  exists line, peek_next self = Some line
               /\ (pop_next self).1.1 = Some line
               /\ line :: _queue (pop_next self).1.2 = _queue self.
Proof.
  unfold is_empty, peek_next, pop_next, pop_front.
  destruct (_queue self) as [|line rest]; [done|]. intros _. by exists line.
Qed.

Lemma peek_next_is_next_pop_witness :
  exists line,
    peek_next (mk [lit "x"; lit "y"] [lit "x"; lit "y"] (lit ",") true 0) = Some line
    /\ (pop_next (mk [lit "x"; lit "y"] [lit "x"; lit "y"] (lit ",") true 0)).1.1
       = Some line
    /\ line :: _queue (pop_next (mk [lit "x"; lit "y"] [lit "x"; lit "y"] (lit ",") true 0)).1.2
       = _queue (mk [lit "x"; lit "y"] [lit "x"; lit "y"] (lit ",") true 0).
Proof. apply peek_next_is_next_pop. reflexivity. Defined.

(** *** What [load_text] stores *)

(** A line with something in it that neither starts nor ends with
    whitespace. *)
Definition trimmed (line : str) : Prop :=
  line <> []
  /\ (forall c, head line = Some c -> PyStr.isspace c = false)
  /\ (forall c, last line = Some c -> PyStr.isspace c = false).

Lemma stripped_lines_trimmed lines : Forall trimmed (stripped_lines lines).
Proof.
  unfold stripped_lines. induction lines as [|l lines IH]; simpl; [constructor|].
  destruct (PyStr.truthy (PyStr.strip l)) eqn:Ht; [|done].
  simpl. constructor; [|done]. repeat split.
  - by destruct (PyStr.strip l).
  - apply PyStrMore.strip_head.
  - apply PyStrMore.strip_last.
Qed.

Lemma stripped_lines_length lines : (length (stripped_lines lines) <= length lines)%nat.
Proof.
  unfold stripped_lines. rewrite length_map. apply filter_length_le.
Qed.

(** X8: Whenever [load_text] returns, with any delimiter, every line of the new
    live queue is non-empty and has no whitespace at either end; the
    snapshot is the same list, and the number returned is its length. *)
Theorem load_text_lines_trimmed text delimiter self n self' emitted :
  load_text text delimiter self = (Ok n, self', emitted) ->
  Forall trimmed (_queue self')
  /\ _original_queue self' = _queue self'
  /\ n = length (_queue self').
Proof.
  unfold load_text. destruct (split_lines text _) as [lines|e]; [|done].
  intros [= <- <- <-]. simpl. split; [apply stripped_lines_trimmed|done].
Qed.

Lemma load_text_lines_trimmed_witness :
  Forall trimmed [lit "a b"; lit "c"]
  /\ [lit "a b"; lit "c"] = [lit "a b"; lit "c"]
  /\ 2%nat = length [lit "a b"; lit "c"].
Proof.
  apply (load_text_lines_trimmed (lit "  a b ;; c ;  ") (Some (lit ";")) __init__
           2%nat (mk [lit "a b"; lit "c"] [lit "a b"; lit "c"] (lit ";") false 0)
           [queue_changed]).
  vm_compute. reflexivity.
Defined.

(** X9: With the newline delimiter, [load_text] never stores more lines than the
    clipboard monitor counts in the same text ([text.count('\n') + 1]). *)
Theorem load_text_count_le_line_count text self :
  _delimiter self = DELIMITER_NEWLINE ->
  exists n, (load_text text None self).1.1 = Ok n
            /\ (n <= ClipboardMonitor.count_newlines text + 1)%nat.
Proof.
  intros Hd. unfold load_text, split_lines. rewrite Hd.
  rewrite (proj2 (PyStrFacts.eqb_true _ _) eq_refl).
  cbn [PyStr.split fst snd]. eexists. split; [reflexivity|].
  etransitivity; [apply stripped_lines_length|].
  rewrite PyStrMore.split_on_char_length, PyStrMore.replace_crlf_count_LF.
  unfold ClipboardMonitor.count_newlines. lia.
Qed.

Lemma load_text_count_le_line_count_witness :
  exists n, (load_text (lit "a" ++ [PyStr.LF; PyStr.LF] ++ lit "b") None __init__).1.1 = Ok n
            /\ (n <= ClipboardMonitor.count_newlines
                       (lit "a" ++ [PyStr.LF; PyStr.LF] ++ lit "b") + 1)%nat.
Proof. apply load_text_count_le_line_count. reflexivity. Defined.

(** *** The stored delimiter is never empty *)

(** Operations other than a [load_text] called with the empty delimiter. *)
Definition no_empty_delimiter (o : op) : Prop :=
  match o with
  | LoadText _ (Some []) => False
  | _ => True
  end.

Lemma delimiter_step o self :
  no_empty_delimiter o -> _delimiter self <> [] -> _delimiter (step o self) <> [].
Proof.
  destruct o as [text [d|]| | | |value|value]; simpl; intros Ho H; try done.
  - unfold load_text. destruct (split_lines text d); simpl; by destruct d.
  - unfold load_text. by destruct (split_lines text _).
  - unfold pop_next, pop_front.
    destruct (_queue self); [|done].
    destruct (_loop_mode self && _); [|done].
    simpl. by destruct (_original_queue self).
  - by destruct value.
Qed.

Lemma load_text_returns text self :
  _delimiter self <> [] -> exists n, (load_text text None self).1.1 = Ok n.
Proof.
  intros H. unfold load_text, split_lines.
  destruct (PyStr.eqb _ _); [by eexists|].
  destruct (_delimiter self) as [|c d]; [done|]. by eexists.
Qed.

(** X10: As long as [load_text] is never handed the empty delimiter (the setter
    replaces it by the newline), the stored delimiter is never empty, and
    [load_text(text)] returns a count for every text, after every
    operation. *)
Theorem load_text_never_raises ops :
  Forall no_empty_delimiter ops ->
  Forall (fun self =>
            _delimiter self <> []
            /\ forall text, exists n, (load_text text None self).1.1 = Ok n)
         (states_after ops __init__).
Proof.
  assert (forall self, _delimiter self <> [] -> Forall no_empty_delimiter ops ->
            Forall (fun self =>
                      _delimiter self <> []
                      /\ forall text, exists n, (load_text text None self).1.1 = Ok n)
                   (states_after ops self)) as H.
  { induction ops as [|o ops IH]; intros self Hs Hops; simpl; constructor.
    - apply Forall_cons in Hops as [Ho _].
      pose proof (delimiter_step o self Ho Hs) as Hd.
      split; [done|]. intros text. by apply load_text_returns.
    - apply Forall_cons in Hops as [Ho Hops]. apply IH; [|done].
      by apply delimiter_step. }
  by apply H.
Qed.

Lemma load_text_never_raises_witness :
  Forall (fun self =>
            _delimiter self <> []
            /\ forall text, exists n, (load_text text None self).1.1 = Ok n)
         (states_after [SetDelimiter []; LoadText (lit "a,b") (Some (lit ",")); PopNext]
            __init__).
Proof.
  apply load_text_never_raises. repeat constructor.
Defined.

End QueueManagerRuns.

(** ** More on the clipboard monitor and the paste cycle *)

Module PasteCycle.
Import QueueClipApp.

(** X11: Handling the same clipboard content a second time changes nothing and
    emits nothing: a content is announced at most once. *)
Theorem _on_data_changed_once w self :
  ClipboardMonitor._on_data_changed w (ClipboardMonitor._on_data_changed w self).1
  = ((ClipboardMonitor._on_data_changed w self).1, None).
Proof.
  unfold ClipboardMonitor._on_data_changed.
  destruct (ClipboardMonitor._paused self) eqn:Hp; cbn [fst]; [by rewrite ?Hp|].
  destruct (PyStr.truthy (ClipboardMonitor.content w)) eqn:Ht; cbn [fst negb];
    [|by rewrite ?Hp].
  destruct (PyStr.eqb (ClipboardMonitor.content w) (ClipboardMonitor._last_content self))
    eqn:He; cbn [fst]; [by rewrite ?Hp, ?He|].
  destruct (_ >=? _);
    cbn [fst ClipboardMonitor.update_last_content ClipboardMonitor._paused
         ClipboardMonitor._last_content];
    rewrite ?Hp; by rewrite (proj2 (PyStrFacts.eqb_true _ _) eq_refl).
Qed.

(** A paused monitor ignores the clipboard; a running one announces a
    content only if it is not empty, differs from the last one seen and has
    at least [min_lines - 1] newlines, and then remembers it. *)
Theorem _on_data_changed_emits w self text :
  (ClipboardMonitor._on_data_changed w self).2 = Some text ->
  ClipboardMonitor._paused self = false
  /\ text = ClipboardMonitor.content w
  /\ text <> []
  /\ text <> ClipboardMonitor._last_content self
  /\ ClipboardMonitor._min_lines self
     <= Z.of_nat (ClipboardMonitor.count_newlines text) + 1
  /\ ClipboardMonitor._last_content (ClipboardMonitor._on_data_changed w self).1 = text.
Proof.
  unfold ClipboardMonitor._on_data_changed.
  destruct (ClipboardMonitor._paused self); [done|].
  destruct (ClipboardMonitor.content w) as [|c s] eqn:Hc; [done|].
  cbn [PyStr.truthy negb].
  destruct (PyStr.eqb _ _) eqn:He; [done|]. apply PyStrFacts.eqb_false in He.
  destruct (_ >=? _) eqn:Hge; [|done]. apply Z.geb_le in Hge.
  intros [= <-]. cbn [fst ClipboardMonitor.update_last_content
                      ClipboardMonitor._last_content]. done.
Qed.

Lemma _on_data_changed_emits_witness :
  ClipboardMonitor._paused (ClipboardMonitor.__init__ 2) = false
  /\ lit "a" ++ [PyStr.LF] ++ lit "b"
     = ClipboardMonitor.content
         (ClipboardMonitor.mk_clipboard (lit "a" ++ [PyStr.LF] ++ lit "b") true [])
  /\ lit "a" ++ [PyStr.LF] ++ lit "b" <> []
  /\ lit "a" ++ [PyStr.LF] ++ lit "b"
     <> ClipboardMonitor._last_content (ClipboardMonitor.__init__ 2)
  /\ ClipboardMonitor._min_lines (ClipboardMonitor.__init__ 2)
     <= Z.of_nat (ClipboardMonitor.count_newlines (lit "a" ++ [PyStr.LF] ++ lit "b")) + 1
  /\ ClipboardMonitor._last_content
       (ClipboardMonitor._on_data_changed
          (ClipboardMonitor.mk_clipboard (lit "a" ++ [PyStr.LF] ++ lit "b") true [])
          (ClipboardMonitor.__init__ 2)).1
     = lit "a" ++ [PyStr.LF] ++ lit "b".
Proof.
  apply (_on_data_changed_emits
           (ClipboardMonitor.mk_clipboard (lit "a" ++ [PyStr.LF] ++ lit "b") true [])
           (ClipboardMonitor.__init__ 2)).
  vm_compute. reflexivity.
Defined.

(** What [restore_clipboard] leaves, on a working clipboard. *)
Lemma restore_clipboard_result current_line original_clipboard self w :
  ClipboardMonitor.available w = true ->
  restore_clipboard current_line original_clipboard self w
  = if PyStr.eqb (ClipboardMonitor.content w) current_line
    then (with_clipboard_monitor
            (ClipboardMonitor.resume
               (ClipboardMonitor.update_last_content original_clipboard
                  (clipboard_monitor self))) self,
          ClipboardMonitor.mk_clipboard original_clipboard true
            (original_clipboard :: ClipboardMonitor.writes w))
    else (with_clipboard_monitor
            (ClipboardMonitor.resume
               (ClipboardMonitor.update_last_content (ClipboardMonitor.content w)
                  (clipboard_monitor self))) self,
          w).
Proof.
  intros Hav. unfold restore_clipboard.
  rewrite (QueueClipAppFacts.get_clipboard_available _ Hav).
  unfold ClipboardMonitor.set_clipboard, ClipboardMonitor.pyperclip_copy.
  rewrite Hav. by destruct (PyStr.eqb _ _).
Qed.

(** X12: After the restore callback, on a working clipboard, the monitor is
    running again and does not announce the content the clipboard then
    holds, be it the restored one or one the user copied meanwhile. *)
Theorem restore_clipboard_no_retrigger current_line original_clipboard self w :
  ClipboardMonitor.available w = true ->
  ClipboardMonitor._paused
    (clipboard_monitor (restore_clipboard current_line original_clipboard self w).1)
  = false
  /\ (ClipboardMonitor._on_data_changed
        (restore_clipboard current_line original_clipboard self w).2
        (clipboard_monitor (restore_clipboard current_line original_clipboard self w).1)).2
     = None.
Proof.
  intros Hav. rewrite (restore_clipboard_result _ _ _ _ Hav).
  unfold ClipboardMonitor._on_data_changed.
  destruct (PyStr.eqb (ClipboardMonitor.content w) current_line);
    cbn [fst snd clipboard_monitor with_clipboard_monitor ClipboardMonitor.content];
    rewrite QueueClipAppFacts.resume_not_paused, QueueClipAppFacts.resume_last_content;
    cbn [ClipboardMonitor.update_last_content ClipboardMonitor._last_content];
    (split; [done|]);
    rewrite (proj2 (PyStrFacts.eqb_true _ _) eq_refl);
    by destruct (negb _).
Qed.

Lemma restore_clipboard_no_retrigger_witness :
  ClipboardMonitor._paused
    (clipboard_monitor
       (restore_clipboard (lit "line") (lit "old")
          (mk Settings.DEFAULT_SETTINGS QueueManager.__init__ (ClipboardMonitor.mk 2 true []))
          (ClipboardMonitor.mk_clipboard (lit "other") true [])).1)
  = false
  /\ (ClipboardMonitor._on_data_changed
        (restore_clipboard (lit "line") (lit "old")
           (mk Settings.DEFAULT_SETTINGS QueueManager.__init__ (ClipboardMonitor.mk 2 true []))
           (ClipboardMonitor.mk_clipboard (lit "other") true [])).2
        (clipboard_monitor
           (restore_clipboard (lit "line") (lit "old")
              (mk Settings.DEFAULT_SETTINGS QueueManager.__init__ (ClipboardMonitor.mk 2 true []))
              (ClipboardMonitor.mk_clipboard (lit "other") true [])).1)).2
     = None.
Proof. apply restore_clipboard_no_retrigger. reflexivity. Defined.

(** X13: A whole paste cycle on a working clipboard that nobody else touches,
    with a [paste_delay] that is an integer from [0] to [2^31 - 1] (what
    [QTimer.singleShot] takes): the hotkey puts the head of the queue in the
    clipboard, removes it from the queue and arms the timer; the timer's
    callback then puts back what the clipboard held before, resumes the
    monitor and makes it remember that content. *)
Theorem paste_cycle_restores self w line rest z :
  QueueManager._queue (queue_manager self) = line :: rest ->
  line <> [] ->
  ClipboardMonitor.available w = true ->
  Settings.get (lit "paste_delay") (Settings.PyInt 350) (settings self)
  = Settings.PyInt z ->
  0 <= z <= 2147483647 ->
  exists self1 w1,
    _on_paste_triggered self w
    = (self1, w1, Some (mk_timer z line (ClipboardMonitor.content w)))
    /\ ClipboardMonitor.content w1 = line
    /\ QueueManager._queue (queue_manager self1) = rest
    /\ ClipboardMonitor.content
         (restore_clipboard line (ClipboardMonitor.content w) self1 w1).2
       = ClipboardMonitor.content w
    /\ ClipboardMonitor._paused
         (clipboard_monitor
            (restore_clipboard line (ClipboardMonitor.content w) self1 w1).1)
       = false
    /\ ClipboardMonitor._last_content
         (clipboard_monitor
            (restore_clipboard line (ClipboardMonitor.content w) self1 w1).1)
       = ClipboardMonitor.content w
    /\ QueueManager._queue
         (queue_manager (restore_clipboard line (ClipboardMonitor.content w) self1 w1).1)
       = rest.
Proof.
  intros Hq Hne Hav Hz Hrange.
  assert (c_int z = true) as Hc by (unfold c_int; lia).
  destruct (QueueClipAppFacts._on_paste_triggered_arms self w line rest z
              Hq Hne Hav Hz Hc) as (self1 & w1 & Ht & Hcont & Hav1 & Hp & Hrest).
  exists self1, w1. split; [done|]. split; [done|]. split; [done|].
  rewrite (restore_clipboard_result _ _ _ _ Hav1), Hcont.
  rewrite (proj2 (PyStrFacts.eqb_true _ _) eq_refl).
  cbn [fst snd clipboard_monitor queue_manager with_clipboard_monitor
       ClipboardMonitor.content].
  rewrite QueueClipAppFacts.resume_not_paused, QueueClipAppFacts.resume_last_content.
  done.
Qed.

Definition sample_app : t :=
  mk Settings.DEFAULT_SETTINGS
     (QueueManager.mk [lit "one"; lit "two"] [lit "one"; lit "two"]
        QueueManager.DELIMITER_NEWLINE false 0)
     (ClipboardMonitor.__init__ 2).

Definition sample_clipboard : ClipboardMonitor.clipboard :=
  ClipboardMonitor.mk_clipboard (lit "before") true [].

Lemma paste_cycle_restores_witness :
  exists self1 w1,
    _on_paste_triggered sample_app sample_clipboard
    = (self1, w1, Some (mk_timer 350 (lit "one") (ClipboardMonitor.content sample_clipboard)))
    /\ ClipboardMonitor.content w1 = lit "one"
    /\ QueueManager._queue (queue_manager self1) = [lit "two"]
    /\ ClipboardMonitor.content
         (restore_clipboard (lit "one") (ClipboardMonitor.content sample_clipboard) self1 w1).2
       = ClipboardMonitor.content sample_clipboard
    /\ ClipboardMonitor._paused
         (clipboard_monitor
            (restore_clipboard (lit "one") (ClipboardMonitor.content sample_clipboard) self1 w1).1)
       = false
    /\ ClipboardMonitor._last_content
         (clipboard_monitor
            (restore_clipboard (lit "one") (ClipboardMonitor.content sample_clipboard) self1 w1).1)
       = ClipboardMonitor.content sample_clipboard
    /\ QueueManager._queue
         (queue_manager
            (restore_clipboard (lit "one") (ClipboardMonitor.content sample_clipboard) self1 w1).1)
       = [lit "two"].
Proof.
  apply (paste_cycle_restores sample_app sample_clipboard (lit "one") [lit "two"] 350).
  - reflexivity.
  - discriminate.
  - reflexivity.
  - vm_compute. reflexivity.
  - lia.
Defined.

(** X14: After the last line was pasted, the hotkey does nothing any more, in
    loop mode too: the handler returns before [pop_next] could reload the
    snapshot. *)
Theorem _on_paste_triggered_after_last_line self w line z :
  QueueManager._queue (queue_manager self) = [line] ->
  line <> [] ->
  ClipboardMonitor.available w = true ->
  Settings.get (lit "paste_delay") (Settings.PyInt 350) (settings self)
  = Settings.PyInt z ->
  forall w',
    _on_paste_triggered (_on_paste_triggered self w).1.1 w'
    = ((_on_paste_triggered self w).1.1, w', None).
Proof.
  intros Hq Hne Hav Hz w'.
  pose proof (QueueClipAppFacts._on_paste_triggered_pops self w line [] Hq Hne) as Hrest.
  unfold _on_paste_triggered at 1. unfold QueueManager.is_empty.
  by rewrite Hrest.
Qed.

Lemma _on_paste_triggered_after_last_line_witness :
  _on_paste_triggered
    (_on_paste_triggered
       (mk Settings.DEFAULT_SETTINGS
          (QueueManager.mk [lit "two"] [lit "one"; lit "two"]
             QueueManager.DELIMITER_NEWLINE true 0)
          (ClipboardMonitor.__init__ 2))
       sample_clipboard).1.1
    sample_clipboard
  = ((_on_paste_triggered
        (mk Settings.DEFAULT_SETTINGS
           (QueueManager.mk [lit "two"] [lit "one"; lit "two"]
              QueueManager.DELIMITER_NEWLINE true 0)
           (ClipboardMonitor.__init__ 2))
        sample_clipboard).1.1,
     sample_clipboard, None).
Proof.
  apply (_on_paste_triggered_after_last_line _ sample_clipboard (lit "two") 350).
  - reflexivity.
  - discriminate.
  - reflexivity.
  - vm_compute. reflexivity.
Defined.

End PasteCycle.

(** ** More on the settings *)

Module SettingsMore.
Import Settings.

(** Every documented key has a value. *)
Definition has_defaults (s : gmap str pyval) : Prop :=
  forall k : str, is_Some (DEFAULT_SETTINGS !! k) -> is_Some (s !! k).

Lemma has_defaults_DEFAULT : has_defaults DEFAULT_SETTINGS.
Proof. by intros k. Qed.

Lemma has_defaults_union (J : gmap str pyval) : has_defaults (J ∪ DEFAULT_SETTINGS).
Proof.
  intros k [v Hk]. destruct (J !! k) as [v'|] eqn:HJ.
  - exists v'. by apply lookup_union_Some_l.
  - exists v. by rewrite lookup_union_r.
Qed.



(** X15: Whatever the file holds, the settings that [load] returns have a value
    for every documented key. *)
Theorem load_has_defaults d s :
  load d = Ok s ->
  forall k : str, is_Some (DEFAULT_SETTINGS !! k) -> is_Some (s !! k).
Proof.
  unfold load. destruct (get_config_file d); [|done].
  destruct (config_file_exists d); [|done].
  destruct (file d) as [st|]; [|intros [= <-]; apply has_defaults_DEFAULT].
  unfold read_settings.
  destruct (can_stat d && can_read d); [|intros [= <-]; apply has_defaults_DEFAULT].
  destruct st as [|v]; [intros [= <-]; apply has_defaults_DEFAULT|].
  destruct v; simpl; intros [= <-];
    first [apply has_defaults_DEFAULT | apply has_defaults_union].
Qed.

Lemma load_has_defaults_witness :
  is_Some ((SettingsFacts.sample_object ∪ DEFAULT_SETTINGS) !! lit "hotkey").
Proof.
  apply (load_has_defaults
           (SettingsFacts.working_disk (Some (Json (PyDict SettingsFacts.sample_object))))
           (SettingsFacts.sample_object ∪ DEFAULT_SETTINGS) eq_refl (lit "hotkey")).
  vm_compute. by eexists.
Defined.

(** X16: [set] then [get]: the value set is the value read, other keys are
    untouched, and this holds in memory even when saving fails or raises. *)
Theorem get_after_set key value self d dflt :
  get key dflt (set key value self d).1.2 = value
  /\ forall key', key' <> key ->
       get key' dflt (set key value self d).1.2 = get key' dflt self.
Proof.
  unfold set, get. destruct (save _ d) as [r d']. cbn [fst snd]. split.
  - by rewrite lookup_insert_eq.
  - intros key' Hne. by rewrite lookup_insert_ne.
Qed.



(** X29: A [save] that opens the file but cannot finish (a value that
    [json.dump] cannot print, or a write that fails) reports nothing and
    destroys what was stored: the next [load] gives the defaults. *)
Theorem load_after_failed_save self d :
  mkdir_ok d = true -> can_stat d = true ->
  can_write d = true -> can_read d = true ->
  dumpable (PyDict self) = false \/ write_completes d = false ->
  (save self d).1 = Ok tt /\ load (save self d).2 = Ok DEFAULT_SETTINGS.
Proof.
  intros Hm Hst Hw Hr Hfail.
  unfold save, get_config_file. rewrite Hm, Hst, Hw. cbn [andb].
  assert (dumpable (PyDict self) && write_completes d = false) as ->
    by (destruct Hfail as [-> | ->]; [done|apply andb_false_r]).
  cbn [fst snd]. split; [done|].
  unfold load, get_config_file, config_file_exists, read_settings, with_file.
  cbn [mkdir_ok can_stat file can_read]. by rewrite Hm, Hst, Hr.
Qed.

Lemma load_after_failed_save_witness :
  (save (<[lit "min_lines" := PyInt (10 ^ 4300)]> DEFAULT_SETTINGS)
        (SettingsFacts.working_disk
           (Some (Json (PyDict SettingsFacts.sample_object))))).1
  = Ok tt
  /\ load (save (<[lit "min_lines" := PyInt (10 ^ 4300)]> DEFAULT_SETTINGS)
             (SettingsFacts.working_disk
                (Some (Json (PyDict SettingsFacts.sample_object))))).2
     = Ok DEFAULT_SETTINGS.
Proof.
  apply load_after_failed_save.
  1-4: reflexivity.
  left. vm_compute. reflexivity.
Defined.

Lemma and_then_ok s d step2 : and_then (Ok tt, s, d) step2 = step2 s d.
Proof. reflexivity. Qed.

Lemma set_ok key value self d :
  mkdir_ok d = true ->
  exists d', set key value self d = (Ok tt, <[key := value]> self, d')
             /\ mkdir_ok d' = true.
Proof.
  intros Hm. unfold set, save, get_config_file. rewrite Hm.
  destruct (can_stat d && can_write d);
    [destruct (dumpable _ && write_completes d)|];
    eexists; (split; [reflexivity|]); by cbn.
Qed.

(** X18: Saving the dialog, with the configuration directory in place: the
    call returns normally and every value of the dialog is in the settings
    afterwards, the custom delimiter exactly when the fifth entry is
    selected. *)
Theorem _save_settings_stores ui self d :
  mkdir_ok d = true ->
  (delimiter_combo ui < 5)%nat -> (position_combo ui < 4)%nat ->
  exists self' d',
    _save_settings ui self d = (Ok tt, self', d')
    /\ delimiter self' = PyString (nth (delimiter_combo ui) delimiter_names [])
    /\ loop_mode self' = PyBool (loop_mode_check ui)
    /\ min_lines self' = PyInt (min_lines_spin ui)
    /\ self' !! lit "paste_delay" = Some (PyInt (paste_delay_spin ui))
    /\ show_indicator self' = PyBool (show_indicator_check ui)
    /\ self' !! lit "indicator_position"
       = Some (PyString (nth (position_combo ui) position_names []))
    /\ (delimiter_combo ui = 4%nat ->
        self' !! lit "custom_delimiter" = Some (PyString (custom_delimiter ui)))
    /\ (delimiter_combo ui <> 4%nat ->
        self' !! lit "custom_delimiter" = self !! lit "custom_delimiter").
Proof.
  intros Hm Hdi Hpi. unfold _save_settings.
  destruct (set_ok (lit "delimiter")
              (PyString (nth (delimiter_combo ui) delimiter_names [])) self d Hm)
    as (d1 & -> & Hm1).
  rewrite and_then_ok.
  set (s1 := <[lit "delimiter" := _]> self).
  assert (delimiter s1 = PyString (nth (delimiter_combo ui) delimiter_names [])) as Hd1
    by (unfold delimiter, get, s1; by rewrite lookup_insert_eq).
  rewrite Hd1.
  assert (exists s2 d2,
            (if eq_str (PyString (nth (delimiter_combo ui) delimiter_names [])) (lit "custom")
             then set (lit "custom_delimiter") (PyString (custom_delimiter ui)) s1 d1
             else (Ok tt, s1, d1)) = (Ok tt, s2, d2)
            /\ mkdir_ok d2 = true
            /\ s2 !! lit "delimiter" = s1 !! lit "delimiter"
            /\ (delimiter_combo ui = 4%nat ->
                s2 !! lit "custom_delimiter" = Some (PyString (custom_delimiter ui)))
            /\ (delimiter_combo ui <> 4%nat ->
                s2 !! lit "custom_delimiter" = self !! lit "custom_delimiter"))
    as (s2 & d2 & -> & Hm2 & Hd2 & Hc2 & Hc2').
  { destruct (delimiter_combo ui) as [|[|[|[|[|n]]]]] eqn:Hi; try lia;
      cbn [nth delimiter_names eq_str].
    1-4: (exists s1, d1; vm_compute PyStr.eqb; repeat split; try done;
          intros _; unfold s1; by rewrite lookup_insert_ne).
    destruct (set_ok (lit "custom_delimiter") (PyString (custom_delimiter ui)) s1 d1 Hm1)
      as (d2 & Hs & Hm2).
    exists (<[lit "custom_delimiter" := PyString (custom_delimiter ui)]> s1), d2.
    rewrite (proj2 (PyStrFacts.eqb_true _ _) eq_refl).
    repeat split; try done.
    - by rewrite lookup_insert_ne.
    - intros _. by rewrite lookup_insert_eq. }
  rewrite and_then_ok.
  destruct (set_ok (lit "loop_mode") (PyBool (loop_mode_check ui)) s2 d2 Hm2)
    as (d3 & -> & Hm3). rewrite and_then_ok.
  set (s3 := <[lit "loop_mode" := PyBool (loop_mode_check ui)]> s2).
  destruct (set_ok (lit "min_lines") (PyInt (min_lines_spin ui)) s3 d3 Hm3)
    as (d4 & -> & Hm4). rewrite and_then_ok.
  set (s4 := <[lit "min_lines" := PyInt (min_lines_spin ui)]> s3).
  destruct (set_ok (lit "paste_delay") (PyInt (paste_delay_spin ui)) s4 d4 Hm4)
    as (d5 & -> & Hm5). rewrite and_then_ok.
  set (s5 := <[lit "paste_delay" := PyInt (paste_delay_spin ui)]> s4).
  destruct (set_ok (lit "show_indicator") (PyBool (show_indicator_check ui)) s5 d5 Hm5)
    as (d6 & -> & Hm6). rewrite and_then_ok.
  set (s6 := <[lit "show_indicator" := PyBool (show_indicator_check ui)]> s5).
  destruct (set_ok (lit "indicator_position")
              (PyString (nth (position_combo ui) position_names [])) s6 d6 Hm6)
    as (d7 & -> & Hm7).
  subst s3 s4 s5 s6.
  eexists _, d7. split; [reflexivity|].
  unfold delimiter, loop_mode, min_lines, show_indicator, get.
  repeat (rewrite lookup_insert_eq || rewrite lookup_insert_ne by done).
  rewrite Hd2. unfold s1. rewrite lookup_insert_eq.
  repeat split; done.
Qed.

Lemma _save_settings_stores_witness :
  exists self' d',
    _save_settings (mk_dialog 4 (lit "|") true 3 200 false 1) DEFAULT_SETTINGS
      (SettingsFacts.working_disk None) = (Ok tt, self', d')
    /\ delimiter self' = PyString (lit "custom")
    /\ loop_mode self' = PyBool true
    /\ min_lines self' = PyInt 3
    /\ self' !! lit "paste_delay" = Some (PyInt 200)
    /\ show_indicator self' = PyBool false
    /\ self' !! lit "indicator_position" = Some (PyString (lit "top-left"))
    /\ (4%nat = 4%nat -> self' !! lit "custom_delimiter" = Some (PyString (lit "|")))
    /\ (4%nat <> 4%nat ->
        self' !! lit "custom_delimiter" = DEFAULT_SETTINGS !! lit "custom_delimiter").
Proof.
  apply (_save_settings_stores (mk_dialog 4 (lit "|") true 3 200 false 1)
           DEFAULT_SETTINGS (SettingsFacts.working_disk None)).
  - reflexivity.
  - simpl. lia.
  - simpl. lia.
Defined.

End SettingsMore.

(** ** The tray menu's delimiter, and the status display *)

Module QueueClipMore.
Import QueueClipApp.

(** X19: Choosing one of the tray menu's four delimiters, with the
    configuration directory in place, stores its name in the settings and
    hands the matching separator to the queue manager; the queue itself is
    not touched. *)
Theorem _on_delimiter_changed_applies name sep self d :
  In (name, sep)
     [(lit "newline", QueueManager.DELIMITER_NEWLINE);
      (lit "comma", QueueManager.DELIMITER_COMMA);
      (lit "tab", QueueManager.DELIMITER_TAB);
      (lit "semicolon", QueueManager.DELIMITER_SEMICOLON)] ->
  Settings.mkdir_ok d = true ->
  exists self' d',
    _on_delimiter_changed name self d = (Ok tt, self', d')
    /\ Settings.delimiter (settings self') = Settings.PyString name
    /\ QueueManager.delimiter (queue_manager self') = sep
    /\ QueueManager._queue (queue_manager self') = QueueManager._queue (queue_manager self).
Proof.
  intros Hin Hm. unfold _on_delimiter_changed.
  destruct (SettingsMore.set_ok (lit "delimiter") (Settings.PyString name)
              (settings self) d Hm) as (d' & -> & _).
  unfold _set_delimiter_from_settings.
  cbn [settings]. unfold Settings.delimiter, Settings.get.
  rewrite lookup_insert_eq. cbn [default delimiter_map_get].
  simpl in Hin.
  destruct Hin as [[= <- <-]|[[= <- <-]|[[= <- <-]|[[= <- <-]|[]]]]];
    eexists _, d'; (split; [reflexivity|]);
    cbn [settings queue_manager with_queue_manager];
    rewrite lookup_insert_eq;
    (split; [reflexivity|]); (split; [vm_compute; reflexivity|reflexivity]).
Qed.

Lemma _on_delimiter_changed_applies_witness :
  exists self' d',
    _on_delimiter_changed (lit "comma") PasteCycle.sample_app
      (SettingsFacts.working_disk None) = (Ok tt, self', d')
    /\ Settings.delimiter (settings self') = Settings.PyString (lit "comma")
    /\ QueueManager.delimiter (queue_manager self') = QueueManager.DELIMITER_COMMA
    /\ QueueManager._queue (queue_manager self')
       = QueueManager._queue (queue_manager PasteCycle.sample_app).
Proof.
  apply (_on_delimiter_changed_applies (lit "comma") QueueManager.DELIMITER_COMMA).
  - right. left. reflexivity.
  - reflexivity.
Defined.

(** *** The indicator *)

(** X20: The indicator never shows more than 30 characters of a line, and shows
    a stripped line of at most 30 characters as it is. *)
Theorem indicator_preview_bounded next_line current total self :
  (length (FloatingIndicator.preview_label
             (FloatingIndicator.update_status next_line current total self)) <= 30)%nat
  /\ ((length (PyStr.strip next_line) <= 30)%nat ->
      FloatingIndicator.preview_label
        (FloatingIndicator.update_status next_line current total self)
      = PyStr.strip next_line).
Proof.
  unfold FloatingIndicator.update_status, FloatingIndicator.max_chars.
  cbn [FloatingIndicator.preview_label].
  destruct (Nat.ltb_spec 30 (length (PyStr.strip next_line))) as [Hlt|Hle].
  - split; [|lia]. rewrite length_app, length_firstn.
    change (length (lit "...")) with 3%nat. lia.
  - split; [lia|done].
Qed.

(** X21: The tray's preview keeps at most the first 30 characters of a line and
    marks the cut with three dots. *)
Theorem tray_preview_bounded next_line current total self :
  0 < total ->
  exists preview,
    TrayIcon.preview_action (TrayIcon.update_status next_line current total self)
    = lit "Next: " ++ preview
    /\ (length preview <= 33)%nat
    /\ firstn 30 preview = firstn 30 next_line
    /\ ((length next_line <= 30)%nat -> preview = next_line).
Proof.
  intros Ht. unfold TrayIcon.update_status.
  destruct (Z.gtb_spec total 0) as [_|]; [|lia].
  cbn [TrayIcon.preview_action].
  destruct (Nat.ltb_spec 30 (length next_line)) as [Hlt|Hle];
    eexists; (split; [reflexivity|]).
  - split; [rewrite length_app, length_firstn;
            change (length (lit "...")) with 3%nat; lia|].
    split; [|lia].
    rewrite firstn_app, firstn_firstn, length_firstn.
    replace (30 `min` 30)%nat with 30%nat by lia.
    replace (30 - 30 `min` length next_line)%nat with 0%nat by lia.
    by rewrite firstn_O, app_nil_r.
  - split; [lia|done].
Qed.

Lemma tray_preview_bounded_witness :
  exists preview,
    TrayIcon.preview_action
      (TrayIcon.update_status (lit "a rather long line that does not fit the menu")
         1 2 TrayIcon.__init__)
    = lit "Next: " ++ preview
    /\ (length preview <= 33)%nat
    /\ firstn 30 preview
       = firstn 30 (lit "a rather long line that does not fit the menu")
    /\ ((length (lit "a rather long line that does not fit the menu") <= 30)%nat ->
        preview = lit "a rather long line that does not fit the menu").
Proof. apply tray_preview_bounded. lia. Defined.

(** *** What the display says about the queue *)

(** The instances on which the display is computed: the live queue is not
    longer than the snapshot and holds no empty line. *)
Definition displayable (qm : QueueManager.t) : Prop :=
  (length (QueueManager._queue qm) <= length (QueueManager._original_queue qm))%nat
  /\ Forall (fun line => line <> []) (QueueManager._queue qm)
  /\ Forall (fun line => line <> []) (QueueManager._original_queue qm).

Lemma displayable_step o qm : displayable qm -> displayable (QueueManager.step o qm).
Proof.
  intros (Hlen & Hq & Ho).
  destruct o as [text delimiter| | | |value|value]; cbn [QueueManager.step].
  2, 5, 6: done.
  - unfold QueueManager.load_text.
    destruct (QueueManager.split_lines text _) as [lines|e]; cbn; [|done].
    assert (Forall (fun line : str => line <> []) (QueueManager.stripped_lines lines)) as H.
    { eapply Forall_impl; [apply QueueManagerRuns.stripped_lines_trimmed|].
      by intros line [? _]. }
    done.
  - split; [by apply QueueManagerFacts.invariant_pop_next|].
    unfold QueueManager.pop_next, QueueManager.pop_front.
    destruct (QueueManager._queue qm) as [|line rest] eqn:E.
    + destruct (QueueManager._loop_mode qm); cbn; [|by rewrite E].
      destruct (QueueManager._original_queue qm) as [|first more] eqn:E'; cbn;
        rewrite ?E, ?E'; [done|].
      split; [|done]. by apply Forall_cons in Ho as [_ Ho].
    + cbn. split; [|done]. by apply Forall_cons in Hq as [_ Hq].
  - unfold displayable. cbn. split; [|split]; [lia|constructor|constructor].
Qed.

Lemma displayable_states_after ops qm :
  displayable qm -> Forall displayable (QueueManager.states_after ops qm).
Proof.
  revert qm. induction ops as [|o ops IH]; intros qm H; simpl; constructor.
  - by apply displayable_step.
  - by apply IH, displayable_step.
Qed.

Lemma displayable_init : displayable QueueManager.__init__.
Proof. unfold displayable. simpl. split; [|split]; [lia|constructor|constructor]. Qed.

(** X22: On every instance of the queue manager reached from a fresh one,
    [_update_ui] tells the truth: with lines left, the tray says how many
    remain (the length of the live queue) and the indicator shows the
    position over the total; with none left, both show the empty state. *)
Theorem _update_ui_shows_queue ops indicator tray_icon :
  Forall (fun qm =>
            match QueueManager._queue qm with
            | line :: rest =>
                TrayIcon.status_action (QueueClipUI._update_ui qm indicator tray_icon).2
                = lit "Queue: "
                  ++ str_of_int (Z.of_nat (QueueManager.get_count qm))
                  ++ lit " remaining"
                /\ TrayIcon.icon_shown (QueueClipUI._update_ui qm indicator tray_icon).2
                   = TrayIcon.icon_with_count (Z.of_nat (QueueManager.get_count qm))
                /\ FloatingIndicator.count_label
                     (QueueClipUI._update_ui qm indicator tray_icon).1
                   = str_of_int (Z.of_nat (QueueManager.get_total qm)
                                 - Z.of_nat (QueueManager.get_count qm) + 1)
                     ++ lit "/" ++ str_of_int (Z.of_nat (QueueManager.get_total qm))
            | [] =>
                QueueClipUI._update_ui qm indicator tray_icon
                = (FloatingIndicator.set_empty indicator, TrayIcon.__init__)
            end)
         (QueueManager.states_after ops QueueManager.__init__).
Proof.
  eapply Forall_impl; [apply displayable_states_after, displayable_init|].
  intros qm (Hlen & Hq & _). cbv beta.
  unfold QueueClipUI._update_ui, QueueManager.peek_next.
  destruct (QueueManager._queue qm) as [|line rest] eqn:E; [reflexivity|].
  apply Forall_cons in Hq as [Hline _].
  destruct line as [|c line]; [done|]. cbn [PyStr.truthy].
  unfold QueueManager.get_current_position, QueueManager.get_total,
    QueueManager.get_count in *.
  rewrite E in *. simpl length in Hlen.
  destruct (Z.gtb_spec (Z.of_nat (length (QueueManager._original_queue qm))) 0) as [Hpos|];
    [|simpl length in *; lia].
  unfold TrayIcon.update_status, FloatingIndicator.update_status.
  destruct (Z.gtb_spec (Z.of_nat (length (QueueManager._original_queue qm))) 0) as [_|];
    [|lia].
  cbn [fst snd TrayIcon.status_action TrayIcon.icon_shown FloatingIndicator.count_label].
  set (total := Z.of_nat (length (QueueManager._original_queue qm))).
  match goal with |- context [total - (total - ?r + 1) + 1] =>
    replace (total - (total - r + 1) + 1) with r by lia end.
  done.
Qed.

End QueueClipMore.

(** ** More on hotkey matching *)

Module HotkeyHandlerMore.
Import HotkeyHandler.

Lemma key_eqb_refl k : key_eqb k k = true.
Proof.
  destruct k as [a|vk [c|] dead|]; simpl; try done.
  - by apply bool_decide_eq_true.
  - rewrite (proj2 (PyStrFacts.eqb_true c c) eq_refl). by destruct dead.
  - by apply bool_decide_eq_true.
Qed.

Lemma key_eqb_sym k1 k2 : key_eqb k1 k2 = key_eqb k2 k1.
Proof.
  destruct k1 as [a|vk1 [c1|] d1|], k2 as [b|vk2 [c2|] d2|]; simpl; try done.
  - apply bool_decide_ext. split; congruence.
  - f_equal; [|by destruct d1, d2].
    unfold PyStr.eqb. apply bool_decide_ext. split; congruence.
  - apply bool_decide_ext. split; congruence.
  - apply bool_decide_ext. split; congruence.
  - apply bool_decide_ext. split; congruence.
Qed.

Lemma same_family_sym families a b :
  HotkeyHandlerFacts.same_family families a b
  = HotkeyHandlerFacts.same_family families b a.
Proof.
  unfold HotkeyHandlerFacts.same_family.
  induction families as [|fam families IH]; [done|].
  simpl. by rewrite IH, andb_comm.
Qed.

Section WithLower.

Variable lower : str -> str.

Lemma _keys_match_refl k : _keys_match lower k k = true.
Proof. unfold _keys_match. by rewrite key_eqb_refl. Qed.

Lemma keys_match_spec_sym k1 k2 :
  HotkeyHandlerFacts.keys_match_spec lower HotkeyHandlerFacts.loose_families k1 k2 ->
  HotkeyHandlerFacts.keys_match_spec lower HotkeyHandlerFacts.loose_families k2 k1.
Proof.
  intros [H|[H|H]].
  - left. by rewrite key_eqb_sym.
  - right; left. destruct k1 as [a| |], k2 as [b| |]; try done.
    unfold HotkeyHandlerFacts.same_modifier in *. by rewrite same_family_sym.
  - right; right. destruct k1 as [|vk1 [c1|] d1|], k2 as [|vk2 [c2|] d2|]; try done.
    simpl in *. destruct H as (? & ? & ?). done.
Qed.

(** X23: Matching does not depend on which of the two keys is the hotkey's and
    which is the pressed one. *)
Theorem _keys_match_sym k1 k2 :
  _keys_match lower k1 k2 = _keys_match lower k2 k1.
Proof.
  destruct (_keys_match lower k1 k2) eqn:E1, (_keys_match lower k2 k1) eqn:E2;
    try done.
  - apply HotkeyHandlerFacts._keys_match_loose, keys_match_spec_sym,
      HotkeyHandlerFacts._keys_match_loose in E1. congruence.
  - apply HotkeyHandlerFacts._keys_match_loose, keys_match_spec_sym,
      HotkeyHandlerFacts._keys_match_loose in E2. congruence.
Qed.

(** X24: The hotkey matches whenever all its keys are among the pressed ones. *)
Theorem _check_hotkey_when_pressed H C :
  (forall hk, In hk H -> In hk C) -> _check_hotkey lower H C = true.
Proof.
  intros Hsub. apply HotkeyHandlerFacts._check_hotkey_forall.
  intros hk Hin. exists hk. split; [by apply Hsub|apply _keys_match_refl].
Qed.

(** X25: The result depends only on which keys the two collections contain, not
    on their order or on repetitions; more pressed keys or fewer hotkey keys
    keep a match. *)
Theorem _check_hotkey_monotone H H' C C' :
  (forall hk, In hk H' -> In hk H) ->
  (forall ck, In ck C -> In ck C') ->
  _check_hotkey lower H C = true -> _check_hotkey lower H' C' = true.
Proof.
  intros HH HC Hm. apply HotkeyHandlerFacts._check_hotkey_forall.
  intros hk Hin.
  destruct (proj1 (HotkeyHandlerFacts._check_hotkey_forall lower H C) Hm hk (HH hk Hin))
    as (ck & Hck & Hmatch).
  exists ck. split; [by apply HC|done].
Qed.

End WithLower.

Lemma _check_hotkey_when_pressed_witness :
  _check_hotkey HotkeyHandlerFacts.ascii_lower
    [Special Key_f9] [Special Key_shift; Special Key_f9] = true.
Proof.
  apply _check_hotkey_when_pressed. intros hk [<-|[]]. right. left. reflexivity.
Defined.

Lemma _check_hotkey_monotone_witness :
  _check_hotkey HotkeyHandlerFacts.ascii_lower
    [Special Key_ctrl]
    [Special Key_f9; Special Key_ctrl_r; Special Key_f9] = true.
Proof.
  apply (_check_hotkey_monotone HotkeyHandlerFacts.ascii_lower
           [Special Key_ctrl; Special Key_ctrl] [Special Key_ctrl]
           [Special Key_ctrl_r] [Special Key_f9; Special Key_ctrl_r; Special Key_f9]).
  - intros hk [<-|[]]. left. reflexivity.
  - intros ck [<-|[]]. right. left. reflexivity.
  - vm_compute. reflexivity.
Defined.

End HotkeyHandlerMore.

(** ** Terminal detection, and the clipboard helpers *)

Module Helpers.

Lemma startswith_iff p s : PyStr.startswith p s = true <-> exists b, s = p ++ b.
Proof.
  split.
  - intros H. eexists. by apply PyStr.startswith_app.
  - intros [b ->]. induction p as [|a p IH]; [done|]. simpl.
    by rewrite N.eqb_refl.
Qed.

(** [p in s] holds exactly when [s] is some text, then [p], then some
    text. *)
Lemma contains_iff p s : PyStr.contains p s = true <-> exists a b, s = a ++ p ++ b.
Proof.
  split.
  - induction s as [|x s IH]; cbn [PyStr.contains]; intros H.
    + rewrite orb_false_r in H. apply startswith_iff in H as [b ->]. by exists [], b.
    + apply orb_prop in H as [H|H].
      * apply startswith_iff in H as [b ->]. by exists [], b.
      * destruct (IH H) as (a & b & ->). by exists (x :: a), b.
  - intros (a & b & ->). induction a as [|x a IH].
    + assert (PyStr.startswith p (p ++ b) = true) as H by (apply startswith_iff; eauto).
      cbn [app]. destruct (p ++ b); cbn [PyStr.contains]; by rewrite H.
    + cbn [app PyStr.contains]. rewrite IH. apply orb_true_r.
Qed.

Lemma contains_trans p q s :
  PyStr.contains p q = true -> PyStr.contains q s = true -> PyStr.contains p s = true.
Proof.
  rewrite !contains_iff. intros (a & b & ->) (a' & b' & ->).
  exists (a' ++ a), (b ++ b'). by rewrite <- !app_assoc.
Qed.

(** The words that decide [is_terminal_window]: every other indicator
    contains one of them. *)
Definition deciding_indicators : list str :=
  [lit "konsole"; lit "kitty"; lit "alacritty"; lit "tilix"; lit "st"; lit "foot";
   lit "hyper"; lit "term"; lit "rxvt"; lit "sakura"; lit "guake"; lit "tilda";
   lit "yakuake"].

(** X26: A window counts as a terminal exactly when its class or title contains
    one of thirteen words, among them the short ones [st] and [term]; the
    nine other indicators of the list add nothing. *)
Theorem is_terminal_window_decided window_info :
  HotkeyHandler.is_terminal_window window_info
  = existsb (fun term => PyStr.contains term window_info) deciding_indicators.
Proof.
  apply eq_true_iff_eq. unfold HotkeyHandler.is_terminal_window.
  rewrite !existsb_exists. split.
  - intros (term & Hin & Hc).
    assert (exists short, In short deciding_indicators
                          /\ PyStr.contains short term = true) as (short & Hs & Hst).
    { unfold HotkeyHandler.terminal_indicators in Hin. simpl in Hin.
      repeat (destruct Hin as [<-|Hin];
              [first
                 [ exists (lit "term"); split; [vm_compute; tauto|vm_compute; reflexivity]
                 | exists (lit "rxvt"); split; [vm_compute; tauto|vm_compute; reflexivity]
                 | match goal with
                   | |- exists short, _ /\ PyStr.contains short ?t = true =>
                       exists t; split; [vm_compute; tauto|vm_compute; reflexivity]
                   end ]|]).
      done. }
    exists short. split; [done|]. by eapply contains_trans.
  - intros (term & Hin & Hc). exists term. split; [|done].
    unfold deciding_indicators in Hin. simpl in Hin.
    repeat (destruct Hin as [<-|Hin]; [vm_compute; tauto|]). done.
Qed.

(** X27: [set_clipboard] reports success exactly when the clipboard works; what
    it wrote is then what [get_clipboard] reads.  On a clipboard that does
    not work it changes nothing and [get_clipboard] yields the empty
    string. *)
Theorem get_clipboard_after_set text w :
  (ClipboardMonitor.set_clipboard text w).1 = ClipboardMonitor.available w
  /\ (ClipboardMonitor.available w = true ->
      ClipboardMonitor.get_clipboard (ClipboardMonitor.set_clipboard text w).2 = text)
  /\ (ClipboardMonitor.available w = false ->
      (ClipboardMonitor.set_clipboard text w).2 = w
      /\ ClipboardMonitor.get_clipboard w = []).
Proof.
  unfold ClipboardMonitor.set_clipboard, ClipboardMonitor.pyperclip_copy,
    ClipboardMonitor.get_clipboard, ClipboardMonitor.pyperclip_paste.
  destruct (ClipboardMonitor.available w) eqn:Hav; cbn; rewrite ?Hav.
  - repeat split; try done. intros _. by destruct text.
  - repeat split; done.
Qed.

End Helpers.

Example split_ex1 :
  PyStr.split (lit "a,b,,c") (lit ",") = Ok [lit "a"; lit "b"; []; lit "c"].
Proof. vm_compute. reflexivity. Qed.
Example split_ex2 :
  PyStr.split (lit "aaa") (lit "aa") = Ok [[]; lit "a"].
Proof. vm_compute. reflexivity. Qed.

Example load_ex1 :
  (QueueManager.load_text (lit "a , b,,  c ") (Some (lit ",")) QueueManager.__init__).1.1
  = Ok 3%nat.
Proof. vm_compute. reflexivity. Qed.

Example str_of_int_ex :
  str_of_int 12 = lit "12" /\ str_of_int 0 = lit "0" /\ str_of_int (-3) = lit "-3".
Proof. vm_compute. repeat split; reflexivity. Qed.

Example update_ui_ex :
  TrayIcon.toolTip
    (QueueClipUI._update_ui
       (QueueManager.mk [lit "b"; lit "c"] [lit "a"; lit "b"; lit "c"] (lit ",") false 0)
       FloatingIndicator.__init__ TrayIcon.__init__).2
  = lit "QueueClip - 2/3: b".
Proof. vm_compute. reflexivity. Qed.
